(** * spcal: detection, limits and calibration of single-particle ICP-MS data

    A shallow embedding of the numerical core of the repository
    ([nanopart/util.py], [spcal/particle.py], [spcal/calc.py]) and of the
    batch worker ([spcal/gui/batch.py]), followed by the properties proved
    about it.

    Conventions.
    - numpy [float64] values are idealised as the real numbers of the
      Standard Library; a one-dimensional array is a [list].  Rounding,
      overflow, [inf] and [nan] are outside this model, so the properties
      stated below are those that do not depend on them: which branch is
      taken, which exception is raised, the sizes of arrays, orderings that
      rounding keeps, and equalities between values computed by the same
      expression.  No exact equality between two different expressions of
      real arithmetic is claimed of the code.
    - A quotient of two Python floats raises [ZeroDivisionError] when the
      divisor is zero; it is written [py_div].  A quotient that involves a
      numpy value raises nothing.
    - The detection routine only compares and adds samples, so it is written
      once over an arbitrary sample type and run on [Z] for the integer
      arrays of the test-suite.
    - A Python exception is a value of [exn]; code that may raise returns
      [py A]. *)

From Stdlib Require Import String Ascii.
From Stdlib Require Import List Arith ZArith Bool Lia.
From Stdlib Require Import Reals Lra.
From Stdlib Require Import Sorting.Sorted Sorting.Permutation.
Import ListNotations.

Set Implicit Arguments.

(** ** Exceptions *)

Inductive exn : Type :=
| ValueError (msg : string)
| TypeError (msg : string)
| KeyError (key : string)
| OSError (msg : string)
| ZeroDivisionError (msg : string)
| AttributeError (msg : string)
| IndexError (msg : string).

Inductive py (A : Type) : Type :=
| Return (a : A)
| Raise (e : exn).

Arguments Return {A} a.
Arguments Raise {A} e.

Definition bind {A B : Type} (m : py A) (k : A -> py B) : py B :=
  match m with
  | Return a => k a
  | Raise e => Raise e
  end.

Notation "x <- m ;; k" := (bind m (fun x => k))
  (at level 61, m at next level, right associativity).

(** [np.arange(a, b)] on naturals. *)
Definition arange (a b : nat) : list nat := seq a (b - a).

(** ** Python dicts with string keys, in insertion order *)

Definition dict (A : Type) : Type := list (string * A).

Fixpoint get {A : Type} (d : dict A) (k : string) : option A :=
  match d with
  | [] => None
  | (k', v) :: r => if String.eqb k k' then Some v else get r k
  end.

(** [d[k] = v]: an existing key keeps its place and takes the new value. *)
Fixpoint dict_set {A : Type} (d : dict A) (k : string) (v : A) : dict A :=
  match d with
  | [] => [(k, v)]
  | (k', v') :: r =>
      if String.eqb k k' then (k, v) :: r else (k', v') :: dict_set r k v
  end.

(** [d.update(e)], and a dict display [{k1: v1, k2: v2, ...}]. *)
Definition dict_update {A : Type} (d e : dict A) : dict A :=
  fold_left (fun d kv => dict_set d (fst kv) (snd kv)) e d.

Definition dict_literal {A : Type} (entries : list (string * A)) : dict A :=
  dict_update [] entries.

(** [d[k]] as an expression. *)
Definition lookup {A : Type} (d : dict A) (k : string) : py A :=
  match get d k with
  | Some v => Return v
  | None => Raise (KeyError k)
  end.

(** ** nanopart/util.py *)

Module Nanopart.

(** The entries of [y] that carry label [i]. *)
Definition select {A : Type} (y : list A) (labels : list nat) (i : nat)
  : list A :=
  map fst (filter (fun p => snd p =? i) (combine y labels)).

Section Detections.

(** The sample type with the three operations the routine uses. *)
Variable T : Type.
Variable zero : T.
Variable add : T -> T -> T.
Variable gtb : T -> T -> bool.

(** [scipy.ndimage.label] on a one-dimensional mask: maximal runs of
    [true] are numbered 1, 2, ... from the left, [false] is 0.  [prev]
    tells whether the sample before belongs to the run numbered [n]. *)
Fixpoint label_from (prev : bool) (n : nat) (mask : list bool)
  : list nat * nat :=
  match mask with
  | [] => ([], n)
  | false :: m =>
      let '(ls, k) := label_from false n m in (0 :: ls, k)
  | true :: m =>
      let n' := if prev then n else S n in
      let '(ls, k) := label_from true n' m in (n' :: ls, k)
  end.

Definition ndi_label (mask : list bool) : list nat * nat :=
  label_from false 0 mask.

(** The greatest and the total of some samples. *)
Definition maximum_of (l : list T) : T :=
  match l with
  | [] => zero
  | a :: r => fold_left (fun m v => if gtb v m then v else m) r a
  end.

Definition total (l : list T) : T := fold_left add l zero.

(** [ndi.maximum(y, labels=labels, index=idx)] and
    [ndi.sum(y, labels=labels, index=idx)]. *)
Definition ndi_maximum (y : list T) (labels idx : list nat) : list T :=
  map (fun i => maximum_of (select y labels i)) idx.

Definition ndi_sum (y : list T) (labels idx : list nat) : list T :=
  map (fun i => total (select y labels i)) idx.

(** [a[mask]] for a boolean mask. *)
Definition take_mask {A : Type} (a : list A) (mask : list bool) : list A :=
  map fst (filter snd (combine a mask)).

(** [np.isin(l, idx)]. *)
Definition isin (l : nat) (idx : list nat) : bool := existsb (Nat.eqb l) idx.

(** [accumulate_detections_scipy(y, limit_detection, limit_accumulation)],
    statement by statement; both limits are single numbers, as the
    signature has them. *)
Definition accumulate_detections_scipy
    (y : list T) (limit_detection limit_accumulation : T)
  : list T * list nat :=
  (* labels, n = ndi.label(y > limit_accumulation) *)
  let '(labels, n) := ndi_label (map (fun v => gtb v limit_accumulation) y) in
  (* idx = np.arange(1, n) *)
  let idx := arange 1 n in
  (* if idx.size == 0: return np.array([]), np.array([]) *)
  if length idx =? 0 then ([], [])
  else
    (* idx = idx[ndi.maximum(y, labels=labels, index=idx) > limit_detection] *)
    let idx :=
      take_mask idx
        (map (fun m => gtb m limit_detection) (ndi_maximum y labels idx)) in
    (* sums = ndi.sum(y, labels=labels, index=idx) *)
    let sums := ndi_sum y labels idx in
    (* labels[~np.isin(labels, idx)] = 0 *)
    let labels := map (fun l => if isin l idx then l else 0) labels in
    (sums, labels).

(** The indices at which [labels] carries [i]. *)
Definition positions (labels : list nat) (i : nat) : list nat :=
  select (seq 0 (length labels)) labels i.

(** Modelled from the spec: one row of the [regions] output of
    [accumulate], which [accumulate_detections_scipy] does not return, as
    the examples of the specification and tests/test_nanopart.py (lines 12
    and 21) write the rows: [start] is the first sample of the region and
    [end] the index at which the region stops, which is the last index of
    the signal when the region runs up to it.  Such rows are offsets for
    [np.add.reduceat] (test line 15); they are used below only to evaluate
    the routine on the signal of the test.  The inclusive ranges that the
    words of spec 4.4 describe are [region_inclusive]. *)
Definition region_of (labels : list nat) (i : nat) : nat * nat :=
  let ps := positions labels i in
  (hd 0 ps, Nat.min (S (last ps 0)) (length labels - 1)).

(** Modelled from the spec: the confirmed regions of a label array, which
    are the labels other than 0 that it carries, from left to right. *)
Definition region_ids (labels : list nat) : list nat :=
  nodup Nat.eq_dec (filter (fun l => negb (l =? 0)) labels).

(** Modelled from the spec: the [regions] output, one row per confirmed
    region in left-to-right order (spec 4.4, Output). *)
Definition regions (labels : list nat) : list (nat * nat) :=
  map (region_of labels) (region_ids labels).

(** [accumulate(signal, lc, ld)] of the spec: the sums and labels of
    [accumulate_detections_scipy], where the critical value [lc] is the
    accumulation limit and [ld] the detection limit, with the rows of the
    labels it returns. *)
Definition accumulate (signal : list T) (lc ld : T)
  : list T * list nat * list (nat * nat) :=
  let '(sums, labels) := accumulate_detections_scipy signal ld lc in
  (sums, labels, regions labels).

(** [y[a:b]]. *)
Definition slice (y : list T) (a b : nat) : list T :=
  firstn (b - a) (skipn a y).

(** The two readings of a row of [regions]: all samples from [start] to
    [end] inclusive, and the reading of [np.add.reduceat] that the test
    uses (tests/test_nanopart.py, line 15). *)

Definition total_inclusive (y : list T) (row : nat * nat) : T :=
  total (slice y (fst row) (S (snd row))).

Definition total_reduceat (y : list T) (row : nat * nat) : T :=
  if fst row <? snd row then total (slice y (fst row) (snd row))
  else nth (fst row) y zero.

End Detections.

(** *** Limits that are one number or one number per sample *)

(** The length of the result when numpy broadcasts two one-dimensional
    arrays of lengths [n] and [m] against each other, when they can be. *)
Definition broadcast_length (n m : nat) : option nat :=
  if n =? m then Some n
  else if n =? 1 then Some m
  else if m =? 1 then Some n
  else None.

(** An array broadcast to length [k]: itself when it has that length, else
    its only entry repeated. *)
Definition stretch {A : Type} (d : A) (a : list A) (k : nat) : list A :=
  if length a =? k then a else repeat (hd d a) k.

Section PerSampleLimits.

Variable T : Type.
Variable zero : T.
Variable add : T -> T -> T.
Variable gtb : T -> T -> bool.

(** A limit as the specification allows it: a scalar, or an array. *)
Inductive limit : Type :=
| Single (v : T)
| PerSample (a : list T).

(** [a > l] in numpy, for an array [a] and a limit [l]. *)
Definition greater (a : list T) (l : limit) : py (list bool) :=
  match l with
  | Single v => Return (map (fun s => gtb s v) a)
  | PerSample b =>
      match broadcast_length (length a) (length b) with
      | Some k =>
          Return (map (fun p => gtb (fst p) (snd p))
                      (combine (stretch zero a k) (stretch zero b k)))
      | None => Raise (ValueError "operands could not be broadcast together")
      end
  end.

(** [accumulate_detections_scipy(y, limit_detection, limit_accumulation)]
    when the limits may be arrays: the same statements, with the
    broadcasting of numpy written out.  [ndi.maximum] and [ndi.sum]
    broadcast [y] against [labels]; a boolean index of another length than
    [idx] is an [IndexError]. *)
Definition accumulate_detections_scipy_limits
    (y : list T) (limit_detection limit_accumulation : limit)
  : py (list T * list nat) :=
  (* labels, n = ndi.label(y > limit_accumulation) *)
  mask <- greater y limit_accumulation ;;
  let '(labels, n) := ndi_label mask in
  (* idx = np.arange(1, n) *)
  let idx := arange 1 n in
  (* if idx.size == 0: return np.array([]), np.array([]) *)
  if length idx =? 0 then Return ([], [])
  else
    let y := stretch zero y (length labels) in
    (* idx = idx[ndi.maximum(y, labels=labels, index=idx) > limit_detection] *)
    above <- greater (ndi_maximum zero gtb y labels idx) limit_detection ;;
    if negb (length above =? length idx)
    then Raise (IndexError "boolean index did not match indexed array")
    else
      let idx := take_mask idx above in
      (* sums = ndi.sum(y, labels=labels, index=idx) *)
      let sums := ndi_sum zero add y labels idx in
      (* labels[~np.isin(labels, idx)] = 0 *)
      let labels := map (fun l => if isin l idx then l else 0) labels in
      Return (sums, labels).





End PerSampleLimits.

Local Open Scope R_scope.

(** [poisson_limits(ub, epsilon=0.5)].  For [ub + epsilon] below zero
    [np.sqrt] returns [nan], which this model does not have: the properties
    below are stated for a radicand that is not negative. *)
Definition poisson_limits (ub epsilon : R) : R * R :=
  let ub := if Rlt_dec ub 5.0 then ub + epsilon else ub in
  (2.33 * sqrt ub, 2.71 + 4.65 * sqrt ub).

Definition default_epsilon : R := 0.5.

End Nanopart.

(** ** numpy on real arrays *)

Local Open Scope R_scope.

(** A [Union[float, np.ndarray]] argument. *)
Inductive value : Type :=
| Scalar (v : R)
| Array (a : list R).

(** Arithmetic of an array or scalar with scalars acts on every entry. *)
Definition vmap (f : R -> R) (x : value) : value :=
  match x with
  | Scalar v => Scalar (f v)
  | Array a => Array (map f a)
  end.

(** [a < b] as a truth value. *)
Definition Rltb (a b : R) : bool := if Rlt_dec a b then true else false.

(** [a / b] for two Python floats (or an [int] and a [float]). *)
Definition py_div (a b : R) : py R :=
  if Req_EM_T b 0 then Raise (ZeroDivisionError "float division by zero")
  else Return (a / b).

(** [np.cbrt]: the real cube root, odd in its argument. *)
Definition cbrt (x : R) : R :=
  if Rlt_dec 0 x then Rpower x (/ 3)
  else if Rlt_dec x 0 then - Rpower (- x) (/ 3)
  else 0.

(** [np.sum] and [np.mean] of an array. *)
Definition np_sum (a : list R) : R := fold_right Rplus 0 a.

Definition np_mean (a : list R) : R := np_sum a / INR (length a).

(** [np.std]: the population standard deviation. *)
Definition np_std (a : list R) : R :=
  let m := np_mean a in
  sqrt (np_mean (map (fun v => (v - m) * (v - m)) a)).

(** [bisect.insort] and [bisect.bisect_left] on a sorted list, [sorted]. *)
Fixpoint insort (l : list R) (v : R) : list R :=
  match l with
  | [] => [v]
  | a :: r => if Rltb v a then v :: a :: r else a :: insort r v
  end.

Fixpoint bisect_left (l : list R) (v : R) : nat :=
  match l with
  | [] => 0%nat
  | a :: r => if Rltb a v then S (bisect_left r v) else 0%nat
  end.

Definition sorted (a : list R) : list R := fold_left insort a [].

(** [np.median]: the middle entry of the sorted array, or the mean of the
    two middle entries. *)
Definition np_median (a : list R) : R :=
  let s := sorted a in
  let n := length a in
  if Nat.even n then (nth (n / 2 - 1) s 0 + nth (n / 2) s 0) / 2
  else nth (n / 2) s 0.

(** [np.amin] and [np.amax]; an empty array has neither. *)
Definition extremum (pick : R -> R -> R) (a : list R) : py R :=
  match a with
  | [] => Raise (ValueError "zero-size array to reduction operation")
  | v :: r => Return (fold_left pick r v)
  end.

Definition np_amin : list R -> py R := extremum Rmin.
Definition np_amax : list R -> py R := extremum Rmax.

(** [np.cumsum], and the difference of two arrays entry by entry. *)
Fixpoint cumsum_from (acc : R) (a : list R) : list R :=
  match a with
  | [] => []
  | v :: r => (acc + v) :: cumsum_from (acc + v) r
  end.

Definition np_cumsum (a : list R) : list R := cumsum_from 0 a.

Definition sub_arrays (a b : list R) : list R :=
  map (fun p => fst p - snd p) (combine a b).

(** [np.pad(a, [p, p], mode="reflect")]: the array mirrored about its first
    and last entries, without repeating them. *)
Definition reflect_index (n : nat) (i : Z) : nat :=
  match n with
  | O | S O => 0%nat
  | _ =>
      let period := (2 * (Z.of_nat n - 1))%Z in
      let j := (i mod period)%Z in
      Z.to_nat (if (j <? Z.of_nat n)%Z then j else (period - j)%Z)
  end.

Definition pad_reflect (a : list R) (p : nat) : list R :=
  map (fun k => nth (reflect_index (length a) (Z.of_nat k - Z.of_nat p)) a 0)
      (seq 0 (length a + 2 * p)).

(** [np.around]: rounding to the nearest integer, halves to the even one. *)
Definition np_around (x : R) : R :=
  let f := (up x - 1)%Z in
  let d := x - IZR f in
  if Rlt_dec d (1 / 2) then IZR f
  else if Rlt_dec (1 / 2) d then IZR (f + 1)
  else if Z.even f then IZR f else IZR (f + 1).

(** ** spcal/particle.py *)

Module Particle.

Definition cell_concentration (masses : value) (diameter molarmass : R)
  : value :=
  vmap (fun m =>
          m / ((4.0 / 3.0 * PI * (diameter / 2.0) ^ 3) * 1000.0 * molarmass))
       masses.

(** The parameter names of [cell_concentration], in order. *)
Definition cell_concentration_params : list string :=
  ["masses"; "diameter"; "molarmass"]%string.

(** [particle_mass(signal, dwell, efficiency, flowrate, response_factor,
    mass_fraction=1.0)]:
    [signal * (dwell * flowrate * efficiency
               / (response_factor * mass_fraction))].
    The quotient is one of Python floats and is taken before the signal is
    looked at. *)
Definition particle_mass
    (signal : value) (dwell efficiency flowrate response_factor
     mass_fraction : R) : py value :=
  factor <- py_div (dwell * flowrate * efficiency)
                   (response_factor * mass_fraction) ;;
  Return (vmap (fun s => s * factor) signal).

(** [particle_number_concentration(count, efficiency, flowrate, time)]:
    [count] is an [int]. *)
Definition particle_number_concentration
    (count efficiency flowrate time : R) : py R :=
  py_div count (efficiency * flowrate * time).

(** [particle_size(masses, density)]:
    [np.cbrt(6.0 / (np.pi * density) * masses)]; [np.pi] is a Python
    float. *)
Definition particle_size (masses : value) (density : R) : py value :=
  factor <- py_div 6.0 (PI * density) ;;
  Return (vmap (fun m => cbrt (factor * m)) masses).

(** [particle_total_concentration(masses, efficiency, flowrate, time)]:
    [np.sum] returns a numpy value, whose quotient raises nothing; with a
    divisor of zero numpy returns [inf] or [nan], which this model does not
    have. *)
Definition particle_total_concentration
    (masses : value) (efficiency flowrate time : R) : R :=
  (match masses with Scalar v => v | Array a => np_sum a end)
  / (efficiency * flowrate * time).

End Particle.

(** ** spcal/calc.py *)

Module Calc.

(** The rolling filters, as computed when [bottleneck] is not installed. *)

(** [moving_mean(x, n)]. *)
Definition moving_mean (x : list R) (n : nat) : list R :=
  let r := np_cumsum x in
  (* r[n:] = r[n:] - r[:-n] *)
  let r := firstn n r ++ sub_arrays (skipn n r) (firstn (length r - n) r) in
  map (fun v => v / INR n) (skipn (n - 1) r).

(** The loop of [moving_median]: [sort] is the sorted window, each pair is
    the sample that leaves the window and the one that enters it. *)
Fixpoint median_loop (m m2 : nat) (sort : list R) (moves : list (R * R))
  : list R :=
  match moves with
  | [] => [nth m sort 0 + nth m2 sort 0]
  | (leaving, entering) :: rest =>
      (nth m sort 0 + nth m2 sort 0)
      :: median_loop m m2
           (insort (let i := bisect_left sort leaving in
                    firstn i sort ++ skipn (S i) sort)
                   entering)
           rest
  end.

(** [moving_median(x, n)]. *)
Definition moving_median (x : list R) (n : nat) : list R :=
  let sort := sorted (firstn n x) in
  let m := (n / 2)%nat in
  let m2 := (m + n mod 2 - 1)%nat in
  let r := median_loop m m2 sort (combine x (skipn n x)) in
  map (fun v => v / 2.0) r.

(** The running window means shared by the two tables of [moving_std]. *)
Definition window_means (x : list R) (n : nat) : list R :=
  let tab := map (fun v => v / INR n) (np_cumsum x) in
  (* sums[0] = tab[n - 1]; sums[1:] = tab[n:] - tab[:-n] *)
  nth (n - 1) tab 0
  :: sub_arrays (skipn n tab) (firstn (length tab - n) tab).

(** [moving_std(x, n)]. *)
Definition moving_std (x : list R) (n : nat) : list R :=
  let sums := window_means x n in
  let sqrs := window_means (map (fun v => v * v) x) n in
  map (fun p => sqrt (fst p - snd p * snd p)) (combine sqrs sums).

(** [needle in text] for strings. *)
Definition contains (needle text : string) : bool :=
  match index 0 needle text with
  | Some _ => true
  | None => false
  end.

Definition methods : list string :=
  ["Automatic"; "Highest"; "Gaussian"; "Gaussian Median"; "Poisson"]%string.

(** The two errors of [calculate_limits]; both are [ValueError]s, told apart
    by their message. *)
Definition invalid_responses : exn := ValueError "Responses invalid.".

(** The message is written here without its quotation marks. *)
Definition invalid_method : exn :=
  ValueError "method must be one of Automatic, Highest, Gaussian, Gaussian Median, Poisson".

Definition limits : Type :=
  (string * dict R * (value * value * value))%type.

Section Limits.

(** [spcal.poisson.formula_c], imported as [poisson_limits]; its module is
    not among the sources, so it is a parameter here.  On an array of
    means it acts entry by entry. *)
Variable poisson_limits : R -> R -> R -> R * R.

(** [calculate_limits(responses, method, sigma, error_rates, window)]. *)
Definition calculate_limits
    (responses : list R) (method : string) (sigma : R)
    (error_rates : R * R) (window : option Z) : py limits :=
  if (length responses =? 0)%nat then Raise invalid_responses
  else if negb (existsb (String.eqb method) methods) then Raise invalid_method
  else
    let ub :=
      if contains "Median" method then np_median responses
      else np_mean responses in
    let method :=
      if String.eqb method "Automatic" then
        if Rltb ub 50.0 then "Poisson"%string else "Gaussian"%string
      else if String.eqb method "Highest" then
        let lpoisson :=
          ub + snd (poisson_limits ub (fst error_rates) (snd error_rates)) in
        let lgaussian := ub + sigma * np_std responses in
        if Rltb lpoisson lgaussian then "Gaussian"%string
        else "Poisson"%string
      else method in
    let gaussian_params := dict_literal [("??"%string, sigma)] in
    let poisson_params :=
      dict_literal [("??"%string, fst error_rates);
                    ("??"%string, snd error_rates)] in
    if match window with None => true | Some w => (w <? 2)%Z end then
      if contains "Gaussian" method then
        let std := np_std responses in
        let ld := ub + sigma * std in
        Return (method, gaussian_params, (Scalar ub, Scalar ld, Scalar ld))
      else
        let '(sc, sd) :=
          poisson_limits ub (fst error_rates) (snd error_rates) in
        Return (method, poisson_params,
                (Scalar ub, Scalar (ub + sc), Scalar (ub + sd)))
    else
      let window := Z.to_nat (match window with Some w => w | None => 0%Z end) in
      let pad := pad_reflect responses (window / 2) in
      let ub :=
        if contains "Median" method then
          firstn (length responses) (moving_median pad window)
        else firstn (length responses) (moving_mean pad window) in
      if contains "Gaussian" method then
        let std := firstn (length responses) (moving_std pad window) in
        let ld := map (fun p => fst p + sigma * snd p) (combine ub std) in
        Return (method, gaussian_params, (Array ub, Array ld, Array ld))
      else
        let limits :=
          map (fun u => poisson_limits u (fst error_rates) (snd error_rates))
              ub in
        Return (method, poisson_params,
                (Array ub,
                 Array (map (fun p => fst p + fst (snd p)) (combine ub limits)),
                 Array (map (fun p => fst p + snd (snd p)) (combine ub limits)))).

End Limits.

(** The dict returned by the two result functions. *)
Definition results : Type := dict value.

(** [if isinstance(lod, np.ndarray):
       lod = np.array([np.amin(lod), np.amax(lod), np.mean(lod), np.median(lod)])] *)
Definition summarise_lod (lod : value) : py value :=
  match lod with
  | Scalar v => Return (Scalar v)
  | Array a =>
      lo <- np_amin a ;;
      hi <- np_amax a ;;
      Return (Array [lo; hi; np_mean a; np_median a])
  end.

(** [results_from_mass_response(detections, background, lod, density,
    massfraction, massresponse)]. *)
Definition results_from_mass_response
    (detections : list R) (background : R) (lod : value)
    (density massfraction massresponse : R) : py results :=
  lod <- summarise_lod lod ;;
  (* masses = detections * (massresponse / massfraction) *)
  ratio <- py_div massresponse massfraction ;;
  let masses := vmap (fun d => d * ratio) (Array detections) in
  sizes <- Particle.particle_size masses density ;;
  (* bed = particle_size(background * (massresponse / massfraction), ...) *)
  ratio <- py_div massresponse massfraction ;;
  bed <- Particle.particle_size (Scalar (background * ratio)) density ;;
  (* lod_mass = lod * (massresponse / massfraction) *)
  ratio <- py_div massresponse massfraction ;;
  let lod_mass := vmap (fun l => l * ratio) lod in
  lod_size <- Particle.particle_size lod_mass density ;;
  Return [("masses", masses); ("sizes", sizes); ("background_size", bed);
          ("lod", lod); ("lod_mass", lod_mass); ("lod_size", lod_size)]%string.

(** [results_from_nebulisation_efficiency(detections, background, lod,
    density, dwelltime, efficiency, massfraction, uptake, response, time)]. *)
Definition results_from_nebulisation_efficiency
    (detections : list R) (background : R) (lod : value)
    (density dwelltime efficiency massfraction uptake response time : R)
  : py results :=
  lod <- summarise_lod lod ;;
  masses <- Particle.particle_mass (Array detections) dwelltime efficiency
              uptake response massfraction ;;
  sizes <- Particle.particle_size masses density ;;
  pnc <- Particle.particle_number_concentration
           (INR (length detections)) efficiency uptake time ;;
  let number_concentration := np_around pnc in
  let concentration :=
    Particle.particle_total_concentration masses efficiency uptake time in
  (* ionic = background / response *)
  ionic <- py_div background response ;;
  background_mass <- Particle.particle_mass (Scalar background) dwelltime
                       efficiency uptake response massfraction ;;
  bed <- Particle.particle_size background_mass density ;;
  lod_mass <- Particle.particle_mass lod dwelltime efficiency uptake response
                massfraction ;;
  lod_size <- Particle.particle_size lod_mass density ;;
  Return [("masses", masses); ("sizes", sizes);
          ("concentration", Scalar concentration);
          ("number_concentration", Scalar number_concentration);
          ("background_concentration", Scalar ionic);
          ("background_size", bed);
          ("lod", lod); ("lod_mass", lod_mass); ("lod_size", lod_size)]%string.

End Calc.

(** ** spcal/gui/batch.py *)

Module Batch.

(** A [Path]; [name] is its final component. *)
Record path : Type := { parent : string; name : string }.

(** [Dict[str, Optional[float]]]: the keyword arguments of one element. *)
Definition kwargs : Type := dict (option R).

Definition is_none {A : Type} (x : option A) : bool :=
  match x with
  | None => true
  | Some _ => false
  end.

(** The entry of one element in the dict that [process_file_detections]
    returns.  [computed] holds the entries added by [update] and by the
    later assignments. *)
Record element : Type := {
  detections : list R;
  background : R;
  lod : value;
  events : nat;
  computed : Calc.results;
  inputs : kwargs
}.

Definition file_results : Type := dict element.

(** Binding keyword arguments to the parameters left after [npos]
    positional ones: a keyword that names no parameter, or a parameter
    without argument, is a [TypeError]. *)
Definition bind_keywords (params : list string) (npos : nat)
    (keywords : dict R) : py (list R) :=
  let rest := skipn npos params in
  if negb (forallb (fun kv => existsb (String.eqb (fst kv)) rest) keywords)
  then Raise (TypeError "got an unexpected keyword argument")
  else
    fold_right
      (fun p acc =>
         match get keywords p with
         | Some v => vs <- acc ;; Return (v :: vs)
         | None => Raise (TypeError "missing a required argument")
         end)
      (Return []) rest.

(** [spcal.cell_concentration(masses, diameter=d, molar_mass=m)] as the
    worker writes the call. *)
Definition call_cell_concentration (masses : value) (d m : R) : py value :=
  args <- bind_keywords Particle.cell_concentration_params 1
            [("diameter", d); ("molar_mass", m)]%string ;;
  match args with
  | [diameter; molarmass] =>
      Return (Particle.cell_concentration masses diameter molarmass)
  | _ => Raise (TypeError "missing a required argument")
  end.

(** What the worker makes visible: the two Qt signals, and [Begin], which
    marks that the interruption poll let a file into the loop body. *)
Inductive event : Type :=
| Begin (file : string)
| processComplete (file : string)
| processFailed (file : string).

(** How [run] ends: the files are exhausted, the poll answered [true]
    ([break]), or an exception left the method. *)
Inductive stop : Type :=
| Exhausted
| Interrupted
| Uncaught (e : exn).

Definition escaped (s : stop) : bool :=
  match s with
  | Uncaught _ => true
  | _ => false
  end.

Inductive outcome : Type :=
| Complete
| Failed
| Escaped (e : exn).

(** [try: ... except ValueError: ...; continue]. *)
Definition except_ValueError {A : Type} (m : py A) (k : A -> outcome)
  : outcome :=
  match m with
  | Return a => k a
  | Raise (ValueError _) => Failed
  | Raise e => Escaped e
  end.

Section Worker.

(** The attributes of a [ProcessThread].  [process_file_detections] stands
    for the function of that name applied to the thread's import options,
    trims and limit settings: it reads the file, which is outside this
    model.  [isInterruptionRequested k] is the answer of the poll made
    after [k] files went through the loop. *)
Variable process_file_detections : path -> py file_results.
Variable method : list R -> R -> value -> kwargs -> py Calc.results.
Variable cell_kws : dict kwargs.
Variable export_nanoparticle_results : path -> file_results -> py unit.
Variable isInterruptionRequested : nat -> bool.

(** The body of [for name in results], on [self.method_kws] and the entry
    of [name]. *)
Definition calibrate_element
    (method_kws : dict kwargs) (name : string) (el : element)
  : dict kwargs * py element :=
  match
    (kws <- lookup method_kws name ;;
     dwelltime <- lookup kws "dwelltime" ;;
     match dwelltime with
     | Some d => Return (kws, INR (events el) * d)
     | None =>
         Raise (TypeError "unsupported operand type(s) for *: 'int' and 'NoneType'")
     end)
  with
  | Raise e => (method_kws, Raise e)
  | Return (kws, time) =>
      let kws := dict_set kws "time" (Some time) in
      (dict_set method_kws name kws,
       el <- (if existsb is_none (map snd kws) then Return el
              else
                r <- method (detections el) (background el) (lod el) kws ;;
                Return {| detections := detections el;
                          background := background el;
                          lod := lod el;
                          events := events el;
                          computed := dict_update (computed el) r;
                          inputs :=
                            filter (fun kv => negb (is_none (snd kv))) kws
                       |}) ;;
       cell <- lookup cell_kws name ;;
       cell_diameter <- lookup cell "cell_diameter" ;;
       match cell_diameter with
       | None => Return el
       | Some d =>
           molar_mass <- lookup cell "molar_mass" ;;
           match molar_mass with
           | None => Return el
           | Some m =>
               masses <- lookup (computed el) "masses" ;;
               conc <- call_cell_concentration masses d m ;;
               lod_mass <- lookup (computed el) "lod_mass" ;;
               lod_conc <- call_cell_concentration lod_mass d m ;;
               Return {| detections := detections el;
                         background := background el;
                         lod := lod el;
                         events := events el;
                         computed :=
                           dict_set
                             (dict_set (computed el)
                                "cell_concentrations" conc)
                             "lod_cell_concentration" lod_conc;
                         inputs := dict_update (inputs el) cell |}
           end
       end)
  end.

(** The second [try] block: every element of the file in turn. *)
Fixpoint calibrate (method_kws : dict kwargs) (todo : file_results)
    (results : file_results) : dict kwargs * py file_results :=
  match todo with
  | [] => (method_kws, Return results)
  | (name, _) :: rest =>
      match lookup results name with
      | Raise e => (method_kws, Raise e)
      | Return el =>
          match calibrate_element method_kws name el with
          | (method_kws, Raise e) => (method_kws, Raise e)
          | (method_kws, Return el) =>
              calibrate method_kws rest (dict_set results name el)
          end
      end
  end.

(** One pass through the loop body for [infile] and [outfile]. *)
Definition process (method_kws : dict kwargs) (infile outfile : path)
  : dict kwargs * outcome :=
  match process_file_detections infile with
  | Raise (ValueError _) => (method_kws, Failed)
  | Raise e => (method_kws, Escaped e)
  | Return results =>
      let '(method_kws, calibrated) :=
        calibrate method_kws results results in
      (method_kws,
       except_ValueError calibrated (fun results =>
       except_ValueError (export_nanoparticle_results outfile results)
         (fun _ => Complete)))
  end.

(** [ProcessThread.run]: the loop over [zip(self.infiles, self.outfiles)],
    from the [k]-th poll on. *)
Fixpoint run_from (k : nat) (method_kws : dict kwargs)
    (files : list (path * path)) : list event * stop :=
  match files with
  | [] => ([], Exhausted)
  | (infile, outfile) :: rest =>
      if isInterruptionRequested k then ([], Interrupted)
      else
        match process method_kws infile outfile with
        | (method_kws, Complete) =>
            let '(t, s) := run_from (S k) method_kws rest in
            (Begin (name infile) :: processComplete (name infile) :: t, s)
        | (method_kws, Failed) =>
            let '(t, s) := run_from (S k) method_kws rest in
            (Begin (name infile) :: processFailed (name infile) :: t, s)
        | (_, Escaped e) => ([Begin (name infile)], Uncaught e)
        end
  end.

Definition run (method_kws : dict kwargs) (infiles outfiles : list path)
  : list event * stop :=
  run_from 0 method_kws (combine infiles outfiles).

(** The number of files let into the loop body among the first [n]: the
    polls up to the first [true]. *)
Fixpoint entering (k n : nat) : nat :=
  match n with
  | O => O
  | S n' => if isInterruptionRequested k then O else S (entering (S k) n')
  end.

End Worker.

(** The files that entered the loop body, and a trace in which every
    [Begin] is followed at once by one report for the same file. *)
Fixpoint begun (t : list event) : list string :=
  match t with
  | [] => []
  | Begin f :: r => f :: begun r
  | _ :: r => begun r
  end.

Fixpoint reported (t : list event) : list string :=
  match t with
  | [] => []
  | Begin _ :: r => reported r
  | processComplete f :: r | processFailed f :: r => f :: reported r
  end.

Fixpoint paired (t : list event) : bool :=
  match t with
  | [] => true
  | Begin f :: processComplete g :: r
  | Begin f :: processFailed g :: r => String.eqb f g && paired r
  | _ => false
  end.

(** *** [process_file_detections] *)

(** What [np.genfromtxt] returns: a structured array of [size] records,
    with its field names ([None] when it has none) and the column of each
    field. *)
Record table : Type := {
  size : nat;
  names : option (list string);
  fields : dict (list R)
}.

(** The entries of [options] that the function reads itself; the others
    are passed to [np.genfromtxt]. *)
Record import_options : Type := {
  options_cps : bool;
  options_dwelltime : option R
}.

(** [a[start : stop]] for a start that is not negative. *)
Definition slice_to (a : list R) (start : nat) (stop : Z) : list R :=
  let n := Z.of_nat (length a) in
  let stop := if (stop <? 0)%Z then Z.max 0 (n + stop) else Z.min stop n in
  firstn (Z.to_nat stop - start) (skipn start a).

Section Reader.

(** [np.genfromtxt] applied to the file and the import options: it reads
    the file, which is outside this model.  [poisson_limits] is
    [spcal.poisson.formula_c], as in [Calc]. *)
Variable genfromtxt : path -> py table.
Variable poisson_limits : R -> R -> R -> R * R.
Variable options : import_options.
Variable trims : dict (nat * nat).
Variable limit_method : string.
Variable limit_sigma : R.
Variable limit_error_rates : R * R.
Variable limit_window : option Z.

(** [for name in responses.dtype.names: responses[name] *= dwell]. *)
Definition scale_by_dwell (responses : table) : py table :=
  match options_dwelltime options with
  | Some dwell =>
      Return {| size := size responses;
                names := names responses;
                fields := map (fun kv =>
                                 (fst kv, map (fun v => v * dwell) (snd kv)))
                              (fields responses) |}
  | None =>
      match names responses with
      | Some (_ :: _) =>
          Raise (TypeError "unsupported operand type(s) for *=: 'float' and 'NoneType'")
      | _ => Return responses
      end
  end.

(** The body of [for name in responses.dtype.names], up to the statement
    that raises.  With [Manual Input] the tuple display reads
    [calculate_limits.dtype], and the function [calculate_limits] has no
    such attribute.  Otherwise [limits] is what [calculate_limits] returns,
    [limits[2]] is its tuple [(ub, lc, ld)], and [limits[2]["lc"]] indexes
    a tuple by a string.  The statements after it, the call of
    [spcal.accumulate_detections] and the assignment to [results[name]],
    are not reached. *)
Definition detections_of (responses : table) (name : string) : py element :=
  column <- lookup (fields responses) name ;;
  trim <- lookup trims name ;;
  let data :=
    slice_to column (fst trim)
      (Z.of_nat (size responses) - Z.of_nat (snd trim))%Z in
  limits <-
    (if String.eqb limit_method "Manual Input"
     then Raise (AttributeError "'function' object has no attribute 'dtype'")
     else Calc.calculate_limits poisson_limits data limit_method limit_sigma
            limit_error_rates limit_window) ;;
  Raise (TypeError "tuple indices must be integers or slices, not str").

(** [results = {}; for name in responses.dtype.names: ...]. *)
Fixpoint detections_of_all (responses : table) (todo : list string)
    (results : file_results) : py file_results :=
  match todo with
  | [] => Return results
  | name :: rest =>
      el <- detections_of responses name ;;
      detections_of_all responses rest (dict_set results name el)
  end.

(** [process_file_detections(file, options, trims, limit_method,
    limit_sigma, limit_error_rates, limit_manual, limit_window)];
    [limit_manual] is read only in the tuple display that raises. *)
Definition process_file_detections (file : path) : py file_results :=
  responses <- genfromtxt file ;;
  if (size responses =? 0)%nat || is_none (names responses)
  then Raise (ValueError
                (String.append "Unabled to import file '"
                   (String.append (name file) "'.")))
  else
    responses <- (if options_cps options then scale_by_dwell responses
                  else Return responses) ;;
    detections_of_all responses
      (match names responses with Some l => l | None => [] end) [].

End Reader.

End Batch.

(** ** Definitions used to state the properties *)

(** The detection routine on integer counts. *)
Definition accumulate_Z := Nanopart.accumulate 0%Z Z.add Z.gtb.

Definition x_test : list Z := [2; 1; 2; 2; 1; 0; 0; 1; 0; 2]%Z.

(** The formula of the specification for [particle_mass]. *)
Definition particle_mass_spec
    (signal : value) (dwell efficiency flowrate response_factor
     mass_fraction : R) : value :=
  vmap (fun s =>
          s * dwell * flowrate * efficiency * mass_fraction / response_factor)
       signal.

(** The method names as the specification lists them. *)
Definition spec_methods : list string :=
  ["Automatic"; "Highest"; "Gaussian"; "Gaussian-Median"; "Poisson"]%string.

(** A Poisson formula to run [calculate_limits] with: the one of
    [nanopart/util.py], whose constants are those of error rates 0.05. *)
Definition currie_limits (ub alpha beta : R) : R * R :=
  Nanopart.poisson_limits ub Nanopart.default_epsilon.

(** The method that [Highest] resolves to, from the statistics of the whole
    signal. *)
Definition highest_choice (poisson_limits : R -> R -> R -> R * R)
    (responses : list R) (sigma : R) (error_rates : R * R) : string :=
  let ub := np_mean responses in
  let lgaussian := ub + sigma * np_std responses in
  let lpoisson :=
    ub + snd (poisson_limits ub (fst error_rates) (snd error_rates)) in
  if Rlt_dec lpoisson lgaussian then "Gaussian"%string else "Poisson"%string.

(** A batch of two files with one element, to run the worker on. *)
Definition file_a : Batch.path :=
  {| Batch.parent := "data"; Batch.name := "a.csv" |}.
Definition file_b : Batch.path :=
  {| Batch.parent := "data"; Batch.name := "b.csv" |}.
Definition out_a : Batch.path :=
  {| Batch.parent := "out"; Batch.name := "a.csv" |}.
Definition out_b : Batch.path :=
  {| Batch.parent := "out"; Batch.name := "b.csv" |}.

Definition gold : Batch.element :=
  {| Batch.detections := [12; 15];
     Batch.background := 1;
     Batch.lod := Scalar 5;
     Batch.events := 100;
     Batch.computed := [];
     Batch.inputs := [("dwelltime"%string, Some 1)] |}.

Definition read_gold (file : Batch.path) : py Batch.file_results :=
  Return [("Au"%string, gold)].

Definition method_example (detections : list R) (background : R)
    (lod : value) (kws : Batch.kwargs) : py Calc.results :=
  Return [("masses"%string, Array detections); ("lod_mass"%string, lod)].

Definition export_example (file : Batch.path) (r : Batch.file_results)
  : py unit := Return tt.

Definition never (k : nat) : bool := false.

Definition no_cell : dict Batch.kwargs :=
  [("Au", [("cell_diameter", None); ("molar_mass", None)])]%string.

Definition kws_complete : dict Batch.kwargs :=
  [("Au", [("density", Some 19300); ("dwelltime", Some 1);
           ("efficiency", Some 1)])]%string.

(** A label array made of runs: [S r] samples labelled [k], then [z] zeros,
    then the runs labelled [S k], ... *)
Fixpoint blocks (k : nat) (rs : list (nat * nat)) : list nat :=
  match rs with
  | [] => []
  | (r, z) :: rest => repeat k (S r) ++ repeat 0%nat z ++ blocks (S k) rest
  end.

(** The [n] samples of [x] from index [i] on, [x[i : i + n]], and all such
    windows of [x] from left to right. *)
Definition window (x : list R) (i n : nat) : list R :=
  firstn n (skipn i x).

Definition windows (x : list R) (n : nat) : list (list R) :=
  map (fun i => window x i n) (seq 0 (length x - n + 1)).

(** The method that [Automatic] resolves to. *)
Definition automatic_choice (responses : list R) : string :=
  if Rlt_dec (np_mean responses) 50 then "Poisson"%string
  else "Gaussian"%string.

(** Inputs of the worker for one element: a cell diameter and a molar mass
    both set, none of them set, and a density left unset. *)
Definition cell_of_gold : Batch.kwargs :=
  [("cell_diameter", Some 1%R); ("molar_mass", Some 1%R)]%string.

Definition cell_inputs : dict Batch.kwargs := [("Au"%string, cell_of_gold)].

Definition no_cell_of_gold : Batch.kwargs :=
  [("cell_diameter", None); ("molar_mass", None)]%string.

Definition inputs_without_density : Batch.kwargs :=
  [("density", None); ("dwelltime", Some 1%R)]%string.

Definition kws_without_density : dict Batch.kwargs :=
  [("Au"%string, inputs_without_density)].

(** ** spcal/gui/batch.py, the dialog *)

Module BatchDialog.

Local Close Scope R_scope.

(** [x in s] for a string [x] of one character. *)
Fixpoint contains (s : string) (x : ascii) : bool :=
  match s with
  | EmptyString => false
  | String a r => Ascii.eqb a x || contains r x
  end.

(** [s.replace(old, new)] for a string [old] of one character. *)
Fixpoint replace (s : string) (old : ascii) (new : string) : string :=
  match s with
  | EmptyString => EmptyString
  | String a r =>
      if Ascii.eqb a old then String.append new (replace r old new)
      else String a (replace r old new)
  end.










End BatchDialog.

(** A batch of three files for the worker with [process_file_detections]
    as its reader: [a.csv] holds no record, the others one column of three
    numbers. *)
Definition file_c : Batch.path :=
  {| Batch.parent := "data"; Batch.name := "c.csv" |}.
Definition out_c : Batch.path :=
  {| Batch.parent := "out"; Batch.name := "c.csv" |}.

Definition csv_example (file : Batch.path) : py Batch.table :=
  if String.eqb (Batch.name file) "a.csv"
  then Return {| Batch.size := 0; Batch.names := None; Batch.fields := [] |}
  else Return {| Batch.size := 3;
                 Batch.names := Some ["Au"%string];
                 Batch.fields := [("Au"%string, [1; 2; 3])] |}.

Definition options_example : Batch.import_options :=
  {| Batch.options_cps := false; Batch.options_dwelltime := Some 1 |}.

Definition trims_example : dict (nat * nat) :=
  [("Au"%string, (0%nat, 0%nat))].

(** The reader of the thread for these files: limits by method Gaussian
    with sigma 3 and no window. *)
Definition reader_example : Batch.path -> py Batch.file_results :=
  Batch.process_file_detections csv_example currie_limits options_example
    trims_example "Gaussian" 3 (0.05, 0.05) None.

(** * Properties *)

Unset Implicit Arguments.

(** ** The array functions *)

Lemma Rltb_true (a b : R) : a < b -> Rltb a b = true.
Proof.
  intros H. unfold Rltb. destruct (Rlt_dec a b); [reflexivity | contradiction].
Qed.

Lemma Rltb_false (a b : R) : b <= a -> Rltb a b = false.
Proof.
  intros H. unfold Rltb. destruct (Rlt_dec a b); [lra | reflexivity].
Qed.

Lemma insort_permutation (l : list R) (v : R) :
  Permutation (v :: l) (insort l v).
Proof.
  induction l as [| a l IH]; simpl; [apply Permutation_refl |].
  destruct (Rltb v a); [apply Permutation_refl |].
  apply perm_trans with (a :: v :: l); [apply perm_swap | now apply perm_skip].
Qed.

Lemma insort_sorted (l : list R) (v : R) :
  Sorted Rle l -> Sorted Rle (insort l v).
Proof.
  induction 1 as [| a l Hs IH Hh]; simpl.
  - repeat constructor.
  - unfold Rltb. destruct (Rlt_dec v a) as [Hlt | Hge].
    + constructor; [now constructor |]. constructor. lra.
    + constructor; [exact IH |].
      destruct l as [| b l]; simpl.
      * constructor. lra.
      * unfold Rltb. inversion Hh; subst.
        destruct (Rlt_dec v b); constructor; lra.
Qed.

(** [sorted] returns the entries of its argument in ascending order. *)
Lemma sorted_spec (a : list R) :
  Sorted Rle (sorted a) /\ Permutation a (sorted a).
Proof.
  unfold sorted.
  assert (G : forall acc, Sorted Rle acc ->
            Sorted Rle (fold_left insort a acc)
            /\ Permutation (a ++ acc) (fold_left insort a acc)).
  { induction a as [| v a IH]; intros acc Hs; simpl.
    - split; [exact Hs | apply Permutation_refl].
    - destruct (IH (insort acc v) (insort_sorted acc v Hs)) as [H1 H2].
      split; [exact H1 |].
      eapply perm_trans; [| exact H2].
      apply perm_trans with (a ++ v :: acc).
      + apply Permutation_middle.
      + apply Permutation_app_head. apply insort_permutation. }
  destruct (G [] (Sorted_nil _)) as [H1 H2].
  split; [exact H1 |]. now rewrite app_nil_r in H2.
Qed.

(** The rolling filters and the padding on small arrays. *)
Example pad_reflect_example :
  pad_reflect [1; 2; 3] 2 = [3; 2; 1; 2; 3; 2; 1]
  /\ pad_reflect [1; 2; 3] 4 = [1; 2; 3; 2; 1; 2; 3; 2; 1; 2; 3].
Proof. split; reflexivity. Qed.

Example moving_mean_example :
  Calc.moving_mean [1; 2; 3; 4] 2 = [1.5; 2.5; 3.5].
Proof.
  unfold Calc.moving_mean, np_cumsum, sub_arrays.
  cbn -[Rplus Rminus Rdiv INR Rmult].
  repeat f_equal; simpl; lra.
Qed.

Example moving_median_example :
  Calc.moving_median [1; 5; 2; 4; 3] 3 = [2; 4; 3].
Proof.
  unfold Calc.moving_median, sorted. cbn -[Rltb Rplus Rdiv].
  repeat (first [rewrite Rltb_true by lra | rewrite Rltb_false by lra];
          cbn -[Rltb Rplus Rdiv]).
  repeat f_equal; lra.
Qed.

Example moving_std_example : Calc.moving_std [1; 3] 2 = [1].
Proof.
  unfold Calc.moving_std, Calc.window_means, np_cumsum, sub_arrays.
  cbn -[Rplus Rminus Rdiv INR Rmult sqrt].
  f_equal. transitivity (sqrt 1); [f_equal; simpl; lra | apply sqrt_1].
Qed.

(** ** Calibration formulas *)

Lemma py_div_nonzero (a b : R) : b <> 0 -> py_div a b = Return (a / b).
Proof.
  intros H. unfold py_div. destruct (Req_EM_T b 0); [contradiction | easy].
Qed.

Lemma py_div_zero (a b : R) :
  b = 0 -> py_div a b = Raise (ZeroDivisionError "float division by zero").
Proof.
  intros H. unfold py_div. destruct (Req_EM_T b 0); [easy | contradiction].
Qed.

(** C1, as amended: when response_factor * mass_fraction is not zero,
    [particle_mass] returns, for a scalar and for every entry of an array,
    the signal times dwell * flowrate * efficiency
    / (response_factor * mass_fraction); the mass fraction divides. *)
Theorem particle_mass_divides_by_mass_fraction :
  forall signal dwell efficiency flowrate response_factor mass_fraction,
    response_factor * mass_fraction <> 0 ->
    Particle.particle_mass signal dwell efficiency flowrate response_factor
      mass_fraction
    = Return
        (vmap (fun s => s * (dwell * flowrate * efficiency
                             / (response_factor * mass_fraction)))
              signal).
Proof.
  intros signal dwell efficiency flowrate response_factor mass_fraction H.
  unfold Particle.particle_mass.
  now rewrite py_div_nonzero by exact H.
Qed.

Lemma particle_mass_divides_by_mass_fraction_witness :
  2 * 0.5 <> 0
  /\ Particle.particle_mass (Array [1; 2; 3]) 0.5 0.5 4 2 0.5
     = Return
         (vmap (fun s => s * (0.5 * 4 * 0.5 / (2 * 0.5))) (Array [1; 2; 3])).
Proof.
  assert (H : 2 * 0.5 <> 0) by lra.
  split; [exact H |].
  exact (particle_mass_divides_by_mass_fraction
           (Array [1; 2; 3]) 0.5 0.5 4 2 0.5 H).
Defined.

(** When response_factor * mass_fraction is zero the quotient raises, for
    every signal. *)
Lemma particle_mass_raises_on_zero_divisor :
  forall signal dwell efficiency flowrate response_factor mass_fraction,
    response_factor * mass_fraction = 0 ->
    Particle.particle_mass signal dwell efficiency flowrate response_factor
      mass_fraction
    = Raise (ZeroDivisionError "float division by zero").
Proof.
  intros signal dwell efficiency flowrate response_factor mass_fraction H.
  unfold Particle.particle_mass.
  now rewrite py_div_zero by exact H.
Qed.

(** C1, refuted as stated: on the arguments of [test_equations] the code
    returns the signal unchanged, while the product with the mass fraction
    would return a quarter of it. *)
Lemma particle_mass_is_not_the_product :
  Particle.particle_mass (Array [1; 2; 3]) 0.5 0.5 4 2 0.5
  = Return (Array [1; 2; 3])
  /\ Particle.particle_mass (Array [1; 2; 3]) 0.5 0.5 4 2 0.5
     <> Return (particle_mass_spec (Array [1; 2; 3]) 0.5 0.5 4 2 0.5).
Proof.
  assert (E : Particle.particle_mass (Array [1; 2; 3]) 0.5 0.5 4 2 0.5
              = Return (Array [1; 2; 3])).
  { unfold Particle.particle_mass.
    rewrite py_div_nonzero by lra. cbn [bind vmap map].
    repeat f_equal; lra. }
  split; [exact E |].
  rewrite E. unfold particle_mass_spec. simpl.
  intros H. injection H as H1 _ _. lra.
Qed.

Lemma PI_times_nonzero (density : R) : density <> 0 -> PI * density <> 0.
Proof.
  intros H. apply Rmult_integral_contrapositive_currified;
    [apply PI_neq0 | exact H].
Qed.

Lemma particle_size_returns (masses : value) (density : R) :
  density <> 0 ->
  Particle.particle_size masses density
  = Return (vmap (fun m => cbrt (6.0 / (PI * density) * m)) masses).
Proof.
  intros H. unfold Particle.particle_size.
  now rewrite py_div_nonzero by (now apply PI_times_nonzero).
Qed.

Lemma particle_size_raises (masses : value) (density : R) :
  density = 0 ->
  Particle.particle_size masses density
  = Raise (ZeroDivisionError "float division by zero").
Proof.
  intros H. unfold Particle.particle_size.
  rewrite py_div_zero; [reflexivity |]. subst. ring.
Qed.

(** ** Poisson limits *)

(** C5: for a mean that is not negative, the critical value is not negative
    and the detection limit is not below it. *)
Theorem poisson_limits_ordered :
  forall mean,
    0 <= mean ->
    let '(sc, sd) := Nanopart.poisson_limits mean Nanopart.default_epsilon in
    0 <= sc /\ sc <= sd.
Proof.
  intros mean Hm. unfold Nanopart.poisson_limits.
  set (ub := if Rlt_dec mean 5.0 then _ else _).
  pose proof (sqrt_pos ub) as Hs.
  split; nra.
Qed.

Lemma poisson_limits_ordered_witness :
  0 <= 1
  /\ let '(sc, sd) := Nanopart.poisson_limits 1 Nanopart.default_epsilon in
     0 <= sc /\ sc <= sd.
Proof.
  split; [lra |].
  apply (poisson_limits_ordered 1). lra.
Defined.

(** ** Limits *)

Lemma existsb_eqb_In (m : string) (l : list string) :
  existsb (String.eqb m) l = true <-> In m l.
Proof.
  rewrite existsb_exists. split.
  - intros [x [Hx E]]. apply String.eqb_eq in E. now subst.
  - intros H. exists m. split; [exact H | apply String.eqb_refl].
Qed.

Lemma nonempty_length {A : Type} (l : list A) :
  l <> [] -> (length l =? 0)%nat = false.
Proof. destruct l; [congruence | reflexivity]. Qed.

Lemma calculate_limits_accepts :
  forall poisson_limits responses method sigma error_rates window,
    responses <> [] ->
    In method Calc.methods ->
    exists limits,
      Calc.calculate_limits poisson_limits responses method sigma
        error_rates window = Return limits.
Proof.
  intros pl responses method sigma er window Hne Hm.
  unfold Calc.calculate_limits.
  rewrite (nonempty_length responses Hne).
  apply existsb_eqb_In in Hm. rewrite Hm. cbn [negb].
  repeat match goal with
         | |- context [if ?c then _ else _] => destruct c
         | |- context [let '(_, _) := ?p in _] => destruct p
         end; eexists; reflexivity.
Qed.

(** C7, as amended: on a signal that is not empty, [calculate_limits] raises
    the method error exactly for the strings outside Automatic, Highest,
    Gaussian, Gaussian Median (with a space) and Poisson, and returns limits
    for these five. *)
Theorem calculate_limits_method_check :
  forall poisson_limits responses method sigma error_rates window,
    responses <> [] ->
    (~ In method Calc.methods ->
     Calc.calculate_limits poisson_limits responses method sigma error_rates
       window = Raise Calc.invalid_method)
    /\ (In method Calc.methods ->
        exists limits,
          Calc.calculate_limits poisson_limits responses method sigma
            error_rates window = Return limits).
Proof.
  intros pl responses method sigma er window Hne.
  split; intros Hm.
  - unfold Calc.calculate_limits.
    rewrite (nonempty_length responses Hne).
    destruct (existsb (String.eqb method) Calc.methods) eqn:E.
    + apply existsb_eqb_In in E. contradiction.
    + reflexivity.
  - now apply calculate_limits_accepts.
Qed.

Lemma calculate_limits_method_check_witness :
  [1; 2] <> []
  /\ (~ In "Median"%string Calc.methods
      /\ Calc.calculate_limits currie_limits [1; 2] "Median" 3 (0.05, 0.05)
           None = Raise Calc.invalid_method)
  /\ (In "Poisson"%string Calc.methods
      /\ exists limits,
           Calc.calculate_limits currie_limits [1; 2] "Poisson" 3
             (0.05, 0.05) None = Return limits).
Proof.
  assert (Hne : [1; 2] <> []) by discriminate.
  assert (Hout : ~ In "Median"%string Calc.methods)
    by (simpl; intuition discriminate).
  assert (Hin : In "Poisson"%string Calc.methods) by (simpl; tauto).
  split; [exact Hne |]. split; (split; [assumption |]).
  - exact (proj1 (calculate_limits_method_check currie_limits [1; 2] "Median"
                    3 (0.05, 0.05) None Hne) Hout).
  - exact (proj2 (calculate_limits_method_check currie_limits [1; 2]
                    "Poisson" 3 (0.05, 0.05) None Hne) Hin).
Defined.

(** C7, refuted as stated: the hyphenated name of the specification is
    rejected, and the name with a space, which the specification does not
    list, is accepted. *)
Lemma calculate_limits_rejects_hyphenated_name :
  (In "Gaussian-Median"%string spec_methods
   /\ Calc.calculate_limits currie_limits [1; 2] "Gaussian-Median" 3
        (0.05, 0.05) None = Raise Calc.invalid_method)
  /\ (~ In "Gaussian Median"%string spec_methods
      /\ Calc.calculate_limits currie_limits [1; 2] "Gaussian Median" 3
           (0.05, 0.05) None <> Raise Calc.invalid_method).
Proof.
  split; split.
  - simpl. tauto.
  - reflexivity.
  - simpl. intuition discriminate.
  - destruct (calculate_limits_accepts currie_limits [1; 2]
                "Gaussian Median" 3 (0.05, 0.05) None) as [l El];
      [discriminate | simpl; tauto |].
    rewrite El. discriminate.
Qed.

(** Deciding the tests on literal method names. *)
Ltac string_test t :=
  let v := eval vm_compute in t in
  match v with
  | true => change t with true
  | false => change t with false
  end.

Ltac string_tests :=
  repeat (match goal with
          | |- context [String.eqb ?a ?b] => string_test (String.eqb a b)
          | |- context [Calc.contains ?a ?b] => string_test (Calc.contains a b)
          | |- context [existsb (String.eqb ?a) Calc.methods] =>
              string_test (existsb (String.eqb a) Calc.methods)
          end; cbv beta iota zeta delta [negb]).

(** C6: with method Highest, [calculate_limits] compares mean + sigma * std
    of the whole signal with the Poisson detection limit of the mean of the
    whole signal, takes Gaussian exactly when the former is strictly larger,
    and returns what it returns for the method taken, for every window; the
    method named in the result does not depend on the window. *)
Theorem highest_decides_on_global_statistics :
  forall poisson_limits responses sigma error_rates window,
    responses <> [] ->
    Calc.calculate_limits poisson_limits responses "Highest" sigma error_rates
      window
    = Calc.calculate_limits poisson_limits responses
        (highest_choice poisson_limits responses sigma error_rates)
        sigma error_rates window
    /\ exists params limits,
        Calc.calculate_limits poisson_limits responses "Highest" sigma
          error_rates window
        = Return (highest_choice poisson_limits responses sigma error_rates,
                  params, limits).
Proof.
  intros pl responses sigma er window Hne.
  unfold highest_choice, Calc.calculate_limits.
  rewrite (nonempty_length responses Hne).
  string_tests. unfold Rltb.
  destruct (Rlt_dec (np_mean responses
                     + snd (pl (np_mean responses) (fst er) (snd er)))
                    (np_mean responses + sigma * np_std responses)).
  - string_tests. split; [reflexivity |].
    destruct window as [w |]; [destruct (w <? 2)%Z |];
      eexists; eexists; reflexivity.
  - string_tests. split; [reflexivity |].
    destruct window as [w |]; [destruct (w <? 2)%Z |];
      repeat match goal with
             | |- context [let '(_, _) := ?p in _] => destruct p
             end; eexists; eexists; reflexivity.
Qed.

Lemma highest_decides_on_global_statistics_witness :
  [1; 2] <> []
  /\ Calc.calculate_limits currie_limits [1; 2] "Highest" 3 (0.05, 0.05)
       (Some 5%Z)
     = Calc.calculate_limits currie_limits [1; 2]
         (highest_choice currie_limits [1; 2] 3 (0.05, 0.05))
         3 (0.05, 0.05) (Some 5%Z)
  /\ exists params limits,
       Calc.calculate_limits currie_limits [1; 2] "Highest" 3 (0.05, 0.05)
         (Some 5%Z)
       = Return (highest_choice currie_limits [1; 2] 3 (0.05, 0.05),
                 params, limits).
Proof.
  split; [discriminate |].
  apply (highest_decides_on_global_statistics currie_limits [1; 2] 3
           (0.05, 0.05) (Some 5%Z)).
  discriminate.
Defined.

(** ** Summary of windowed limits of detection *)

Lemma fold_left_Rmin_spec (r : list R) (v : R) :
  In (fold_left Rmin r v) (v :: r)
  /\ forall x, In x (v :: r) -> fold_left Rmin r v <= x.
Proof.
  revert v. induction r as [| a r IH]; intros v; simpl.
  - split; [now left | intros x [<- | []]; lra].
  - destruct (IH (Rmin v a)) as [Hin Hle]. split.
    + destruct Hin as [E | Hin]; [| now right; right].
      rewrite <- E. unfold Rmin. destruct (Rle_dec v a); [now left | right; now left].
    + intros x Hx.
      assert (Hm : fold_left Rmin r (Rmin v a) <= Rmin v a)
        by (apply Hle; now left).
      destruct Hx as [<- | [<- | Hx]].
      * pose proof (Rmin_l v a). lra.
      * pose proof (Rmin_r v a). lra.
      * apply Hle. now right.
Qed.

Lemma fold_left_Rmax_spec (r : list R) (v : R) :
  In (fold_left Rmax r v) (v :: r)
  /\ forall x, In x (v :: r) -> x <= fold_left Rmax r v.
Proof.
  revert v. induction r as [| a r IH]; intros v; simpl.
  - split; [now left | intros x [<- | []]; lra].
  - destruct (IH (Rmax v a)) as [Hin Hle]. split.
    + destruct Hin as [E | Hin]; [| now right; right].
      rewrite <- E. unfold Rmax. destruct (Rle_dec v a); [right; now left | now left].
    + intros x Hx.
      assert (Hm : Rmax v a <= fold_left Rmax r (Rmax v a))
        by (apply Hle; now left).
      destruct Hx as [<- | [<- | Hx]].
      * pose proof (Rmax_l v a). lra.
      * pose proof (Rmax_r v a). lra.
      * apply Hle. now right.
Qed.

(** On an array that is not empty [np.amin] and [np.amax] return its least
    and its greatest entry. *)
Lemma np_amin_amax (a : list R) :
  a <> [] ->
  exists lo hi,
    np_amin a = Return lo /\ np_amax a = Return hi
    /\ (In lo a /\ forall v, In v a -> lo <= v)
    /\ (In hi a /\ forall v, In v a -> v <= hi).
Proof.
  destruct a as [| v r]; [congruence | intros _].
  exists (fold_left Rmin r v), (fold_left Rmax r v).
  split; [reflexivity |]. split; [reflexivity |].
  split; [apply fold_left_Rmin_spec | apply fold_left_Rmax_spec].
Qed.

(** C10: when the limit of detection is an array that is not empty, and no
    divisor is zero, both result functions replace the array by
    [least, greatest, mean, median] before anything else; the entries [lod],
    [lod_mass] and [lod_size] they return are this array of four values, its
    masses and their sizes. *)
Theorem lod_array_is_summarised :
  forall detections background a density dwelltime efficiency massfraction
         uptake response time massresponse,
    a <> [] ->
    density <> 0 ->
    response * massfraction <> 0 ->
    efficiency * uptake * time <> 0 ->
    exists lo hi,
      (In lo a /\ forall v, In v a -> lo <= v)
      /\ (In hi a /\ forall v, In v a -> v <= hi)
      /\ (let summary := Array [lo; hi; np_mean a; np_median a] in
          (exists r lod_size,
              Calc.results_from_mass_response detections background (Array a)
                density massfraction massresponse = Return r
              /\ get r "lod" = Some summary
              /\ get r "lod_mass"
                 = Some (vmap (fun l => l * (massresponse / massfraction))
                              summary)
              /\ Particle.particle_size
                   (vmap (fun l => l * (massresponse / massfraction)) summary)
                   density
                 = Return lod_size
              /\ get r "lod_size" = Some lod_size)
          /\ (exists r lod_mass lod_size,
                 Calc.results_from_nebulisation_efficiency detections
                   background (Array a) density dwelltime efficiency
                   massfraction uptake response time = Return r
                 /\ get r "lod" = Some summary
                 /\ Particle.particle_mass summary dwelltime efficiency uptake
                      response massfraction
                    = Return lod_mass
                 /\ get r "lod_mass" = Some lod_mass
                 /\ Particle.particle_size lod_mass density = Return lod_size
                 /\ get r "lod_size" = Some lod_size)).
Proof.
  intros detections background a density dwelltime efficiency massfraction
         uptake response time massresponse Hne Hrho Hrf Het.
  assert (Hmf : massfraction <> 0) by (intros ->; apply Hrf; ring).
  assert (Hr : response <> 0) by (intros ->; apply Hrf; ring).
  destruct (np_amin_amax a Hne) as [lo [hi [Elo [Ehi [Hlo Hhi]]]]].
  exists lo, hi. split; [exact Hlo |]. split; [exact Hhi |].
  cbv zeta. split.
  - eexists. eexists. split.
    + unfold Calc.results_from_mass_response, Calc.summarise_lod.
      rewrite Elo, Ehi. cbn [bind].
      repeat (first [rewrite py_div_nonzero by assumption
                    | rewrite particle_size_returns by assumption];
              cbn [bind]).
      reflexivity.
    + split; [reflexivity |]. split; [reflexivity |].
      split; [now rewrite particle_size_returns by exact Hrho | reflexivity].
  - eexists. eexists. eexists. split.
    + unfold Calc.results_from_nebulisation_efficiency, Calc.summarise_lod,
        Particle.particle_mass, Particle.particle_number_concentration.
      rewrite Elo, Ehi. cbn [bind].
      repeat (first [rewrite py_div_nonzero by assumption
                    | rewrite particle_size_returns by assumption];
              cbn [bind]).
      reflexivity.
    + split; [reflexivity |].
      split; [unfold Particle.particle_mass;
              now rewrite py_div_nonzero by exact Hrf |].
      split; [reflexivity |].
      split; [now rewrite particle_size_returns by exact Hrho | reflexivity].
Qed.

Lemma lod_array_is_summarised_witness :
  [3; 1; 2] <> []
  /\ 5 <> 0
  /\ 1 * 1 <> 0
  /\ 1 * 1 * 1 <> 0
  /\ exists lo hi,
      (In lo [3; 1; 2] /\ forall v, In v [3; 1; 2] -> lo <= v)
      /\ (In hi [3; 1; 2] /\ forall v, In v [3; 1; 2] -> v <= hi)
      /\ (let summary :=
            Array [lo; hi; np_mean [3; 1; 2]; np_median [3; 1; 2]] in
          (exists r lod_size,
              Calc.results_from_mass_response [10; 20] 1 (Array [3; 1; 2])
                5 1 2 = Return r
              /\ get r "lod" = Some summary
              /\ get r "lod_mass"
                 = Some (vmap (fun l => l * (2 / 1)) summary)
              /\ Particle.particle_size
                   (vmap (fun l => l * (2 / 1)) summary) 5
                 = Return lod_size
              /\ get r "lod_size" = Some lod_size)
          /\ (exists r lod_mass lod_size,
                 Calc.results_from_nebulisation_efficiency [10; 20] 1
                   (Array [3; 1; 2]) 5 1 1 1 1 1 1 = Return r
                 /\ get r "lod" = Some summary
                 /\ Particle.particle_mass summary 1 1 1 1 1
                    = Return lod_mass
                 /\ get r "lod_mass" = Some lod_mass
                 /\ Particle.particle_size lod_mass 5 = Return lod_size
                 /\ get r "lod_size" = Some lod_size)).
Proof.
  assert (H1 : [3; 1; 2] <> []) by discriminate.
  assert (H2 : 5 <> 0) by lra.
  assert (H3 : 1 * 1 <> 0) by lra.
  assert (H4 : 1 * 1 * 1 <> 0) by lra.
  split; [exact H1 |]. split; [exact H2 |]. split; [exact H3 |].
  split; [exact H4 |].
  exact (lod_array_is_summarised [10; 20] 1 [3; 1; 2] 5 1 1 1 1 1 1 2
           H1 H2 H3 H4).
Defined.

(** ** Detection *)

Local Close Scope R_scope.

(** C2, on the code: labels run from 1 to [n], so [np.arange(1, n)] leaves
    the last region out; on the signal of the test with both limits 1 the
    routine accumulates two regions, not three, and clears the label of the
    third. *)
Theorem accumulate_drops_the_last_region :
  Nanopart.accumulate_detections_scipy 0%Z Z.add Z.gtb x_test 1%Z 1%Z
  = ([2; 4]%Z, [1; 0; 2; 2; 0; 0; 0; 0; 0; 0])
  /\ accumulate_Z x_test 1%Z 1%Z
     = ([2; 4]%Z, [1; 0; 2; 2; 0; 0; 0; 0; 0; 0], [(0, 1); (2, 4)]).
Proof. split; vm_compute; reflexivity. Qed.

(** C4, on the code: with the critical value 1 above the detection limit 0
    the routine returns sums and labels, whichever of its two limits takes
    which number; it has no check of the limits. *)
Theorem accumulate_accepts_lc_above_ld :
  Z.gtb 1 0 = true
  /\ accumulate_Z x_test 1%Z 0%Z
     = ([2; 4]%Z, [1; 0; 2; 2; 0; 0; 0; 0; 0; 0], [(0, 1); (2, 4)])
  /\ Nanopart.accumulate_detections_scipy 0%Z Z.add Z.gtb x_test 0%Z 1%Z
     = ([2; 4]%Z, [1; 0; 2; 2; 0; 0; 0; 0; 0; 0])
  /\ Nanopart.accumulate_detections_scipy 0%Z Z.add Z.gtb x_test 1%Z 0%Z
     = ([8]%Z, [1; 1; 1; 1; 1; 0; 0; 0; 0; 0]).
Proof. repeat split; vm_compute; reflexivity. Qed.

(** The rows of the test are those of the region model on the complete
    labelling. *)
Lemma regions_of_test_labels :
  Nanopart.regions [1; 0; 2; 2; 0; 0; 0; 0; 0; 3] = [(0, 1); (2, 4); (9, 9)]
  /\ Nanopart.regions [1; 1; 1; 1; 1; 0; 0; 0; 0; 2] = [(0, 5); (9, 9)].
Proof. split; vm_compute; reflexivity. Qed.

(** *** The shape of a label array *)

Lemma label_from_length (mask : list bool) :
  forall prev n, length (fst (Nanopart.label_from prev n mask)) = length mask.
Proof.
  induction mask as [| b m IH]; intros prev n; simpl; [reflexivity |].
  destruct b.
  - specialize (IH true (if prev then n else S n)).
    destruct (Nanopart.label_from true _ m). simpl in *. now rewrite IH.
  - specialize (IH false n).
    destruct (Nanopart.label_from false n m). simpl in *. now rewrite IH.
Qed.

Lemma label_from_blocks (mask : list bool) :
  forall prev n ls k,
    Nanopart.label_from prev n mask = (ls, k) ->
    exists r0 z0 rs,
      ls = repeat n r0 ++ repeat 0 z0 ++ blocks (S n) rs
      /\ k = n + length rs
      /\ (prev = false -> r0 = 0).
Proof.
  induction mask as [| b m IH]; intros prev n ls k E; simpl in E.
  - injection E as <- <-. exists 0, 0, []. simpl.
    split; [reflexivity | split; [lia | reflexivity]].
  - destruct b.
    + destruct (Nanopart.label_from true (if prev then n else S n) m)
        as [ls' k'] eqn:E'.
      injection E as <- <-.
      destruct (IH _ _ _ _ E') as [r0 [z0 [rs [-> [-> _]]]]].
      destruct prev.
      * exists (S r0), z0, rs.
        split; [reflexivity | split; [lia | discriminate]].
      * exists 0, 0, ((r0, z0) :: rs). simpl.
        split; [reflexivity | split; [lia | reflexivity]].
    + destruct (Nanopart.label_from false n m) as [ls' k'] eqn:E'.
      injection E as <- <-.
      destruct (IH _ _ _ _ E') as [r0 [z0 [rs [-> [-> Hr]]]]].
      rewrite (Hr eq_refl). simpl.
      exists 0, (S z0), rs.
      split; [reflexivity | split; [lia | reflexivity]].
Qed.

(** [ndi.label] returns runs numbered from 1 and their number. *)
Lemma ndi_label_blocks (mask : list bool) :
  exists z rs,
    Nanopart.ndi_label mask = (repeat 0 z ++ blocks 1 rs, length rs).
Proof.
  unfold Nanopart.ndi_label.
  destruct (Nanopart.label_from false 0 mask) as [ls k] eqn:E.
  destruct (label_from_blocks mask _ _ _ _ E) as [r0 [z0 [rs [-> [-> Hr]]]]].
  rewrite (Hr eq_refl). simpl. now exists z0, rs.
Qed.

Lemma blocks_range (rs : list (nat * nat)) :
  forall k x, In x (blocks k rs) -> x = 0 \/ (k <= x < k + length rs).
Proof.
  induction rs as [| [r z] rest IH]; intros k x Hx; [easy |].
  cbn [blocks] in Hx. rewrite !in_app_iff in Hx.
  destruct Hx as [Hx | [Hx | Hx]].
  - apply repeat_spec in Hx. subst. right. simpl. lia.
  - apply repeat_spec in Hx. now left.
  - apply IH in Hx. simpl. lia.
Qed.


(** *** Selecting the samples of a run *)









(** *** The labels that remain after the rejected ones are cleared *)

Lemma isin_In (l : nat) (idx : list nat) :
  Nanopart.isin l idx = true <-> In l idx.
Proof.
  unfold Nanopart.isin. rewrite existsb_exists. split.
  - intros [x [Hx E]]. apply Nat.eqb_eq in E. now subst.
  - intros H. exists l. split; [exact H | apply Nat.eqb_refl].
Qed.

Lemma take_mask_incl {A : Type} (a : list A) (mask : list bool) (x : A) :
  In x (Nanopart.take_mask a mask) -> In x a.
Proof.
  unfold Nanopart.take_mask. intros H.
  apply in_map_iff in H. destruct H as [[y b] [<- H]].
  apply filter_In in H. destruct H as [H _].
  now apply in_combine_l in H.
Qed.

Lemma take_mask_cons {A : Type} (x : A) (a : list A) (b : bool)
    (mask : list bool) :
  Nanopart.take_mask (x :: a) (b :: mask)
  = if b then x :: Nanopart.take_mask a mask else Nanopart.take_mask a mask.
Proof. unfold Nanopart.take_mask. simpl. now destruct b. Qed.

(** Taking entries by a mask out of an array without repetition keeps the
    entries that are in the result. *)
Lemma take_mask_filter (idx : list nat) :
  forall mask,
    NoDup idx ->
    filter (fun i => Nanopart.isin i (Nanopart.take_mask idx mask)) idx
    = Nanopart.take_mask idx mask.
Proof.
  induction idx as [| a idx IH]; intros mask Hnd.
  - reflexivity.
  - inversion Hnd as [| ? ? Ha Hnd']; subst.
    destruct mask as [| b mask].
    + unfold Nanopart.take_mask. simpl. clear.
      induction idx as [| c idx IHc]; [reflexivity | exact IHc].
    + rewrite take_mask_cons. cbn [filter]. destruct b.
      * replace (Nanopart.isin a (a :: Nanopart.take_mask idx mask))
          with true by (symmetry; apply isin_In; now left).
        f_equal.
        transitivity
          (filter (fun i => Nanopart.isin i (Nanopart.take_mask idx mask)) idx);
          [| apply IH; exact Hnd'].
        apply filter_ext_in. intros x Hx.
        unfold Nanopart.isin. cbn [existsb].
        destruct (Nat.eqb_spec x a) as [-> | _]; [contradiction | reflexivity].
      * destruct (Nanopart.isin a (Nanopart.take_mask idx mask)) eqn:E.
        -- apply isin_In in E. apply take_mask_incl in E. contradiction.
        -- apply IH. exact Hnd'.
Qed.

Lemma nodup_repeat_app (a r : nat) (l : list nat) :
  ~ In a l ->
  nodup Nat.eq_dec (repeat a (S r) ++ l) = a :: nodup Nat.eq_dec l.
Proof.
  intros Hn. induction r as [| r IH].
  - simpl. destruct (in_dec Nat.eq_dec a l); [contradiction | reflexivity].
  - change (repeat a (S (S r)) ++ l) with (a :: (repeat a (S r) ++ l)).
    cbn [nodup].
    destruct (in_dec Nat.eq_dec a (repeat a (S r) ++ l)) as [_ | N].
    + exact IH.
    + exfalso. apply N. now left.
Qed.

Lemma filter_nonzero_repeat (a n : nat) :
  filter (fun l => negb (l =? 0)) (repeat a n)
  = if a =? 0 then [] else repeat a n.
Proof.
  induction n as [| n IH]; simpl.
  - now destruct (a =? 0).
  - rewrite IH. now destruct (a =? 0).
Qed.

Section Cleared.

Variable kept : list nat.

Let clear (l : nat) : nat := if Nanopart.isin l kept then l else 0.

Lemma clear_zero : clear 0 = 0.
Proof. unfold clear. now destruct (Nanopart.isin 0 kept). Qed.

Lemma region_ids_blocks (rs : list (nat * nat)) :
  forall k,
    1 <= k ->
    Nanopart.region_ids (map clear (blocks k rs))
    = filter (fun i => Nanopart.isin i kept) (seq k (length rs)).
Proof.
  unfold Nanopart.region_ids.
  induction rs as [| [r z] rest IH]; intros k Hk; [reflexivity |].
  cbn [blocks length seq filter].
  rewrite !map_app, !map_repeat, !filter_app, clear_zero.
  rewrite !filter_nonzero_repeat. cbn [Nat.eqb app].
  assert (Hlater : ~ In k (filter (fun l => negb (l =? 0))
                             (map clear (blocks (S k) rest)))).
  { intros H. apply filter_In in H. destruct H as [H _].
    apply in_map_iff in H. destruct H as [x [Ex Hx]].
    apply blocks_range in Hx. unfold clear in Ex.
    destruct (Nanopart.isin x kept); lia. }
  unfold clear at 1 2. destruct (Nanopart.isin k kept).
  - replace (k =? 0) with false by (symmetry; apply Nat.eqb_neq; lia).
    rewrite nodup_repeat_app by exact Hlater.
    f_equal. apply IH. lia.
  - cbn [Nat.eqb app]. apply IH. lia.
Qed.

End Cleared.

Lemma region_ids_zeros (z : nat) (l : list nat) :
  Nanopart.region_ids (repeat 0 z ++ l) = Nanopart.region_ids l.
Proof.
  unfold Nanopart.region_ids.
  now rewrite filter_app, filter_nonzero_repeat.
Qed.


(** The labels that remain in the array are the accepted ones, in order. *)
Lemma region_ids_cleared (z : nat) (rs : list (nat * nat))
    (mask : list bool) :
  let kept := Nanopart.take_mask (seq 1 (length rs - 1)) mask in
  Nanopart.region_ids
    (map (fun l => if Nanopart.isin l kept then l else 0)
         (repeat 0 z ++ blocks 1 rs))
  = kept.
Proof.
  intros kept.
  rewrite map_app, map_repeat.
  replace (if Nanopart.isin 0 kept then 0 else 0) with 0
    by (now destruct (Nanopart.isin 0 kept)).
  rewrite region_ids_zeros, region_ids_blocks by lia.
  subst kept. destruct (length rs) as [| n].
  - simpl. destruct mask; reflexivity.
  - replace (S n - 1) with n by lia.
    rewrite seq_S, filter_app. cbn [filter].
    destruct (Nanopart.isin (1 + n) (Nanopart.take_mask (seq 1 n) mask)) eqn:E.
    + apply isin_In in E. apply take_mask_incl in E.
      apply in_seq in E. lia.
    + rewrite app_nil_r. apply take_mask_filter. apply seq_NoDup.
Qed.

Lemma stretch_same {A : Type} (d : A) (a : list A) :
  Nanopart.stretch d a (length a) = a.
Proof. unfold Nanopart.stretch. now rewrite Nat.eqb_refl. Qed.

Section Accumulate.

Variable T : Type.
Variable zero : T.
Variable add : T -> T -> T.
Variable gtb : T -> T -> bool.



(** With scalar limits the routine is [accumulate_detections_scipy] and
    always returns. *)
Lemma accumulate_detections_scipy_single (y : list T) (ld la : T) :
  Nanopart.accumulate_detections_scipy_limits zero add gtb y
    (Nanopart.Single ld) (Nanopart.Single la)
  = Return (Nanopart.accumulate_detections_scipy zero add gtb y ld la).
Proof.
  unfold Nanopart.accumulate_detections_scipy_limits,
    Nanopart.accumulate_detections_scipy.
  cbn [Nanopart.greater bind].
  pose proof (label_from_length (map (fun v => gtb v la) y) false 0) as Hlen.
  fold (Nanopart.ndi_label (map (fun v => gtb v la) y)) in Hlen.
  destruct (Nanopart.ndi_label (map (fun v => gtb v la) y)) as [labels n].
  cbn [fst] in Hlen. rewrite length_map in Hlen.
  destruct (length (arange 1 n) =? 0); [reflexivity |].
  rewrite Hlen, !stretch_same.
  cbn [Nanopart.greater bind].
  unfold Nanopart.ndi_maximum. rewrite !length_map, Nat.eqb_refl.
  reflexivity.
Qed.

End Accumulate.



(** The rows that the examples of the specification and the test give for
    this signal, [[0, 1], [2, 4], [9, 9]], are not inclusive ranges: read
    so, the first one adds up to 3 where the first sum is 2.  They are the
    offsets that the test passes to [np.add.reduceat], which give 2, 4
    and 2. *)
Lemma example_rows_are_reduceat_offsets :
  map (Nanopart.total_reduceat 0%Z Z.add x_test) [(0, 1); (2, 4); (9, 9)]
  = [2; 4; 2]%Z
  /\ Nanopart.total_inclusive 0%Z Z.add x_test (0, 1) = 3%Z.
Proof. split; reflexivity. Qed.

(** ** The batch worker *)

Lemma map_fst_combine_firstn {A B : Type} (f : A -> string) (l : list A)
    (l' : list B) (n : nat) :
  n <= length (combine l l') ->
  map (fun p => f (fst p)) (firstn n (combine l l')) = map f (firstn n l).
Proof.
  revert l l'. induction n as [| n IH]; intros l l' Hn; [reflexivity |].
  destruct l as [| a l]; [simpl in Hn; lia |].
  destruct l' as [| b l']; [simpl in Hn; lia |].
  simpl in *. f_equal. apply IH. lia.
Qed.

Section ReaderProperties.

Variable genfromtxt : Batch.path -> py Batch.table.
Variable poisson_limits : R -> R -> R -> R * R.
Variable options : Batch.import_options.
Variable trims : dict (nat * nat).
Variable limit_method : string.
Variable limit_sigma : R.
Variable limit_error_rates : R * R.
Variable limit_window : option Z.

(** The loop body raises for every field. *)
Lemma detections_of_raises (responses : Batch.table) (name : string) :
  exists e,
    Batch.detections_of poisson_limits trims limit_method limit_sigma
      limit_error_rates limit_window responses name
    = Raise e.
Proof.
  unfold Batch.detections_of.
  destruct (lookup (Batch.fields responses) name) as [column | e];
    [| now exists e].
  cbn [bind].
  destruct (lookup trims name) as [trim | e]; [| now exists e].
  cbn [bind].
  destruct (if String.eqb limit_method "Manual Input" then _ else _)
    as [limits | e]; [| now exists e].
  cbn [bind]. eexists. reflexivity.
Qed.

(** [process_file_detections] returns only for an array without fields,
    and then an empty dict: no file gets results. *)
Lemma process_file_detections_returns_nothing (file : Batch.path)
    (results : Batch.file_results) :
  Batch.process_file_detections genfromtxt poisson_limits options trims
    limit_method limit_sigma limit_error_rates limit_window file
  = Return results ->
  results = [].
Proof.
  unfold Batch.process_file_detections.
  destruct (genfromtxt file) as [responses | e]; [| discriminate].
  cbn [bind].
  destruct ((Batch.size responses =? 0)%nat
            || Batch.is_none (Batch.names responses)); [discriminate |].
  destruct (if Batch.options_cps options then _ else _)
    as [scaled | e]; [| discriminate].
  cbn [bind].
  destruct (Batch.names scaled) as [[| name rest] |].
  - intros H. now injection H as <-.
  - cbn [Batch.detections_of_all].
    destruct (detections_of_raises scaled name) as [e ->]. discriminate.
  - intros H. now injection H as <-.
Qed.

End ReaderProperties.

(** C9, on the code: the first file holds no record, its [ValueError] is
    caught, the file is reported as failed and the next file is taken; the
    second file is imported, [process_file_detections] raises a [TypeError]
    at [limits[2]["lc"]], which no handler of [run] catches: the file
    entered the loop body and has no report, the third file is never
    processed, and no cancellation was asked. *)
Theorem batch_stops_at_the_first_imported_file :
  Batch.run reader_example method_example no_cell export_example never
    kws_complete [file_a; file_b; file_c] [out_a; out_b; out_c]
  = ([Batch.Begin "a.csv"; Batch.processFailed "a.csv";
      Batch.Begin "b.csv"],
     Batch.Uncaught
       (TypeError "tuple indices must be integers or slices, not str")).
Proof. reflexivity. Qed.

(** * Further properties of the code *)

Local Open Scope R_scope.

(** ** spcal/calc.py, rolling filters *)

Lemma length_cumsum_from (a : list R) :
  forall acc, length (cumsum_from acc a) = length a.
Proof.
  induction a as [| v a IH]; intros acc; simpl; [reflexivity |].
  now rewrite IH.
Qed.

Lemma length_sub_arrays (a b : list R) :
  length (sub_arrays a b) = Nat.min (length a) (length b).
Proof. unfold sub_arrays. now rewrite length_map, length_combine. Qed.

Lemma length_window (x : list R) (i n : nat) :
  (i + n <= length x)%nat -> length (window x i n) = n.
Proof.
  intros H. unfold window. rewrite length_firstn, length_skipn. lia.
Qed.

(** *** The rolling median *)

Lemma StronglySorted_Rle (l : list R) :
  Sorted Rle l -> StronglySorted Rle l.
Proof.
  apply Sorted_StronglySorted. intros a b c. apply Rle_trans.
Qed.

(** Two ascending lists with the same entries are the same list. *)
Lemma ascending_unique (l1 : list R) :
  forall l2,
    StronglySorted Rle l1 -> StronglySorted Rle l2 -> Permutation l1 l2 ->
    l1 = l2.
Proof.
  induction l1 as [| a l1 IH]; intros l2 S1 S2 P.
  - apply Permutation_nil in P. now subst.
  - destruct l2 as [| b l2].
    + apply Permutation_sym, Permutation_nil in P. discriminate.
    + inversion S1 as [| ? ? S1' F1]; subst.
      inversion S2 as [| ? ? S2' F2]; subst.
      assert (Hab : a = b).
      { assert (Ha : In a (b :: l2))
          by (eapply Permutation_in; [exact P | now left]).
        assert (Hb : In b (a :: l1))
          by (eapply Permutation_in;
              [apply Permutation_sym; exact P | now left]).
        rewrite Forall_forall in F1, F2.
        destruct Ha as [-> | Ha]; [reflexivity |].
        destruct Hb as [-> | Hb]; [reflexivity |].
        apply Rle_antisym; [now apply F1 | now apply F2]. }
      subst b. f_equal. apply IH; try assumption.
      now apply Permutation_cons_inv in P.
Qed.

Lemma sorted_unique (w l : list R) :
  Sorted Rle l -> Permutation w l -> l = sorted w.
Proof.
  intros HS P. destruct (sorted_spec w) as [Sw Pw].
  apply ascending_unique.
  - now apply StronglySorted_Rle.
  - now apply StronglySorted_Rle.
  - eapply perm_trans; [apply Permutation_sym; exact P | exact Pw].
Qed.

(** Deleting at [bisect_left] takes one copy of an entry out of an
    ascending list. *)
Lemma delete_at_bisect_left (l : list R) (v : R) :
  StronglySorted Rle l -> In v l ->
  let i := bisect_left l v in
  Permutation l (v :: (firstn i l ++ skipn (S i) l))
  /\ StronglySorted Rle (firstn i l ++ skipn (S i) l).
Proof.
  induction l as [| a l IH]; intros HS Hin; [contradiction |].
  inversion HS as [| ? ? HS' F]; subst.
  cbn [bisect_left]. unfold Rltb. destruct (Rlt_dec a v) as [Hlt | Hge].
  - assert (Hin' : In v l) by (destruct Hin as [E | H]; [lra | exact H]).
    destruct (IH HS' Hin') as [P Ss]. cbn zeta in *.
    change (firstn (S (bisect_left l v)) (a :: l))
      with (a :: firstn (bisect_left l v) l).
    change (skipn (S (S (bisect_left l v))) (a :: l))
      with (skipn (S (bisect_left l v)) l).
    cbn [app]. split.
    + apply perm_trans
        with (a :: v :: firstn (bisect_left l v) l
                ++ skipn (S (bisect_left l v)) l);
        [now apply perm_skip | apply perm_swap].
    + constructor; [exact Ss |].
      rewrite Forall_forall in *. intros y Hy. apply F.
      eapply Permutation_in; [apply Permutation_sym; exact P |].
      now right.
  - assert (E : a = v).
    { destruct Hin as [E | H]; [exact E |].
      rewrite Forall_forall in F. specialize (F v H). lra. }
    subst a. cbn. split; [apply Permutation_refl | exact HS'].
Qed.

Lemma skipn_cons_nth {A : Type} (l : list A) (d : A) :
  forall j, (j < length l)%nat -> skipn j l = nth j l d :: skipn (S j) l.
Proof.
  induction l as [| a l IH]; intros j Hj; simpl in Hj; [lia |].
  destruct j as [| j]; [reflexivity |].
  change (skipn (S j) (a :: l)) with (skipn j l).
  change (nth (S j) (a :: l) d) with (nth j l d).
  change (skipn (S (S j)) (a :: l)) with (skipn (S j) l).
  apply IH. lia.
Qed.

Lemma firstn_snoc_nth {A : Type} (l : list A) (d : A) :
  forall k, (k < length l)%nat -> firstn (S k) l = firstn k l ++ [nth k l d].
Proof.
  induction l as [| a l IH]; intros k Hk; simpl in Hk; [lia |].
  destruct k as [| k]; [reflexivity |].
  change (firstn (S (S k)) (a :: l)) with (a :: firstn (S k) l).
  change (firstn (S k) (a :: l)) with (a :: firstn k l).
  change (nth (S k) (a :: l) d) with (nth k l d).
  cbn [app]. f_equal. apply IH. lia.
Qed.

(** Moving the window one sample to the right: the first sample leaves,
    the sample [n] places further enters. *)
Lemma window_slides (x : list R) (j n : nat) :
  (S (j + n) <= length x)%nat -> (1 <= n)%nat ->
  exists t,
    window x j n = nth j x 0 :: t
    /\ window x (S j) n = t ++ [nth (j + n) x 0].
Proof.
  intros Hl Hn. unfold window.
  exists (firstn (n - 1) (skipn (S j) x)). split.
  - rewrite (skipn_cons_nth x 0 j) by lia.
    destruct n as [| k]; [lia |].
    replace (S k - 1)%nat with k by lia. reflexivity.
  - destruct n as [| k]; [lia |].
    replace (S k - 1)%nat with k by lia.
    rewrite (firstn_snoc_nth (skipn (S j) x) 0 k)
      by (rewrite length_skipn; lia).
    rewrite nth_skipn. do 3 f_equal. lia.
Qed.

(** One turn of the loop of [moving_median] keeps the sorted window. *)
Lemma sorted_window_slides (x : list R) (j n : nat) :
  (S (j + n) <= length x)%nat -> (1 <= n)%nat ->
  let sort := sorted (window x j n) in
  let i := bisect_left sort (nth j x 0) in
  insort (firstn i sort ++ skipn (S i) sort) (nth (j + n) x 0)
  = sorted (window x (S j) n).
Proof.
  intros Hl Hn sort i.
  destruct (window_slides x j n Hl Hn) as [t [Ej ESj]].
  destruct (sorted_spec (window x j n)) as [Ss Ps]. fold sort in Ss, Ps.
  assert (Hin : In (nth j x 0) sort).
  { eapply Permutation_in; [exact Ps |]. rewrite Ej. now left. }
  destruct (delete_at_bisect_left sort (nth j x 0)
              (StronglySorted_Rle sort Ss) Hin) as [Pd Sd].
  fold i in Pd, Sd.
  apply sorted_unique.
  - apply insort_sorted. now apply StronglySorted_Sorted.
  - rewrite ESj.
    eapply perm_trans; [| apply insort_permutation].
    apply perm_trans with (nth (j + n) x 0 :: t);
      [apply Permutation_sym, Permutation_cons_append |].
    apply perm_skip.
    apply Permutation_cons_inv with (a := nth j x 0).
    rewrite <- Ej.
    eapply perm_trans; [exact Ps | exact Pd].
Qed.

Lemma median_loop_spec (x : list R) (n m m2 : nat) :
  (1 <= n)%nat ->
  forall d j,
    (j + n + d = length x)%nat ->
    Calc.median_loop m m2 (sorted (window x j n))
      (combine (skipn j x) (skipn (j + n) x))
    = map (fun i => nth m (sorted (window x i n)) 0
                    + nth m2 (sorted (window x i n)) 0)
          (seq j (S d)).
Proof.
  intros Hn. induction d as [| d IH]; intros j Hl.
  - rewrite (skipn_all2 (n := j + n) x) by lia.
    replace (combine (skipn j x) []) with (@nil (R * R))
      by (now destruct (skipn j x)).
    reflexivity.
  - rewrite (skipn_cons_nth x 0 j), (skipn_cons_nth x 0 (j + n)) by lia.
    cbn [combine Calc.median_loop].
    change (seq j (S (S d))) with (j :: seq (S j) (S d)).
    cbn [map]. f_equal.
    rewrite (sorted_window_slides x j n) by lia.
    replace (S (j + n)) with (S j + n)%nat by lia.
    apply IH. lia.
Qed.

Lemma parity_cases (n : nat) :
  (Nat.even n = true /\ n mod 2 = 0)%nat
  \/ (Nat.even n = false /\ n mod 2 = 1)%nat.
Proof.
  destruct (Nat.even n) eqn:E.
  - left. split; [reflexivity |].
    apply Nat.even_spec in E. destruct E as [k ->].
    rewrite Nat.mul_comm. apply Nat.Div0.mod_mul.
  - right. split; [reflexivity |].
    assert (O : Nat.odd n = true) by (now rewrite <- Nat.negb_even, E).
    apply Nat.odd_spec in O. destruct O as [k ->].
    replace (2 * k + 1)%nat with (1 + k * 2)%nat by lia.
    now rewrite Nat.Div0.mod_add.
Qed.

(** X8: [moving_median] returns the median of every window of [n]
    samples, from left to right. *)
Theorem moving_median_is_window_median :
  forall x n,
    (1 <= n <= length x)%nat ->
    Calc.moving_median x n = map np_median (windows x n).
Proof.
  intros x n Hn. unfold Calc.moving_median.
  change (firstn n x) with (window x 0 n).
  change (combine x (skipn n x))
    with (combine (skipn 0 x) (skipn (0 + n) x)).
  rewrite (median_loop_spec x n _ _ (proj1 Hn) (length x - n) 0) by lia.
  unfold windows.
  replace (length x - n + 1)%nat with (S (length x - n)) by lia.
  rewrite !map_map. apply map_ext_in. intros i Hi. apply in_seq in Hi.
  unfold np_median. rewrite length_window by lia.
  replace 2.0 with 2 by lra.
  destruct (parity_cases n) as [[E M] | [E M]]; rewrite E, M.
  - replace (n / 2 + 0 - 1)%nat with (n / 2 - 1)%nat by lia. lra.
  - replace (n / 2 + 1 - 1)%nat with (n / 2)%nat by lia. lra.
Qed.

Lemma moving_median_is_window_median_witness :
  (1 <= 3 <= length [1; 5; 2; 4; 3])%nat
  /\ Calc.moving_median [1; 5; 2; 4; 3] 3
     = map np_median (windows [1; 5; 2; 4; 3] 3).
Proof.
  assert (H : (1 <= 3 <= length [1; 5; 2; 4; 3])%nat) by (simpl; lia).
  split; [exact H |].
  exact (moving_median_is_window_median [1; 5; 2; 4; 3] 3 H).
Defined.

(** ** spcal/calc.py, limits *)

Lemma length_moving_mean (x : list R) (n : nat) :
  (1 <= n <= length x)%nat ->
  length (Calc.moving_mean x n) = (length x - n + 1)%nat.
Proof.
  intros Hn. unfold Calc.moving_mean.
  assert (Lr : length (np_cumsum x) = length x) by apply length_cumsum_from.
  rewrite length_map, length_skipn, length_app, length_sub_arrays,
    !length_firstn, length_skipn.
  lia.
Qed.

Lemma length_window_means (x : list R) (n : nat) :
  (1 <= n <= length x)%nat ->
  length (Calc.window_means x n) = (length x - n + 1)%nat.
Proof.
  intros Hn. unfold Calc.window_means.
  assert (Lr : length (np_cumsum x) = length x) by apply length_cumsum_from.
  cbn [length].
  rewrite length_sub_arrays, length_skipn, length_firstn, !length_map.
  lia.
Qed.

Lemma length_moving_std (x : list R) (n : nat) :
  (1 <= n <= length x)%nat ->
  length (Calc.moving_std x n) = (length x - n + 1)%nat.
Proof.
  intros Hn. unfold Calc.moving_std.
  rewrite length_map, length_combine, !length_window_means
    by (now rewrite ?length_map).
  rewrite length_map. lia.
Qed.

Lemma length_median_loop (m m2 : nat) (moves : list (R * R)) :
  forall sort,
    length (Calc.median_loop m m2 sort moves) = S (length moves).
Proof.
  induction moves as [| [a b] moves IH]; intros sort; [reflexivity |].
  cbn [Calc.median_loop length]. now rewrite IH.
Qed.

Lemma length_moving_median (x : list R) (n : nat) :
  (1 <= n <= length x)%nat ->
  length (Calc.moving_median x n) = (length x - n + 1)%nat.
Proof.
  intros Hn. unfold Calc.moving_median.
  rewrite length_map, length_median_loop, length_combine, length_skipn.
  lia.
Qed.

Lemma length_pad_reflect (a : list R) (p : nat) :
  length (pad_reflect a p) = (length a + 2 * p)%nat.
Proof. unfold pad_reflect. now rewrite length_map, length_seq. Qed.

(** The rolling filters of the padded signal cover every sample. *)
Lemma window_fits (n w : nat) :
  (1 <= n)%nat -> (2 <= w)%nat ->
  (1 <= w <= n + 2 * (w / 2))%nat
  /\ (n <= n + 2 * (w / 2) - w + 1)%nat.
Proof.
  intros Hn Hw.
  pose proof (Nat.div_mod_eq w 2) as E.
  pose proof (Nat.mod_upper_bound w 2 ltac:(lia)) as M.
  lia.
Qed.

(** X9: with a window of 2 or more, the mean, the critical value and the
    detection limit that [calculate_limits] returns are arrays of the size
    of the signal, for every method it accepts. *)
Theorem windowed_limits_have_signal_size :
  forall poisson_limits responses method sigma error_rates w,
    responses <> [] -> In method Calc.methods -> (2 <= w)%Z ->
    exists name params ub lc ld,
      Calc.calculate_limits poisson_limits responses method sigma
        error_rates (Some w)
      = Return (name, params, (Array ub, Array lc, Array ld))
      /\ length ub = length responses
      /\ length lc = length responses
      /\ length ld = length responses.
Proof.
  intros pl responses method sigma er w Hne Hm Hw.
  unfold Calc.calculate_limits.
  rewrite (nonempty_length responses Hne).
  apply existsb_eqb_In in Hm. rewrite Hm. cbn [negb].
  replace (w <? 2)%Z with false by (symmetry; apply Z.ltb_ge; exact Hw).
  assert (Hn : (1 <= length responses)%nat)
    by (destruct responses; [congruence | simpl; lia]).
  assert (Hw' : (2 <= Z.to_nat w)%nat) by lia.
  destruct (window_fits (length responses) (Z.to_nat w) Hn Hw') as [F1 F2].
  set (pad := pad_reflect responses (Z.to_nat w / 2)).
  assert (Lp : length pad = (length responses + 2 * (Z.to_nat w / 2))%nat)
    by apply length_pad_reflect.
  assert (Lmean : length (firstn (length responses)
                            (Calc.moving_mean pad (Z.to_nat w)))
                  = length responses)
    by (rewrite length_firstn, length_moving_mean; lia).
  assert (Lmed : length (firstn (length responses)
                           (Calc.moving_median pad (Z.to_nat w)))
                 = length responses)
    by (rewrite length_firstn, length_moving_median; lia).
  assert (Lstd : length (firstn (length responses)
                           (Calc.moving_std pad (Z.to_nat w)))
                 = length responses)
    by (rewrite length_firstn, length_moving_std; lia).
  repeat match goal with
         | |- context [if ?c then _ else _] => destruct c
         end;
    do 5 eexists; (split; [reflexivity |]);
    rewrite ?length_map, ?length_combine, ?length_map, ?Lmean, ?Lmed, ?Lstd;
    repeat split; lia.
Qed.

Lemma windowed_limits_have_signal_size_witness :
  [1; 2; 3] <> [] /\ In "Gaussian"%string Calc.methods /\ (2 <= 5)%Z
  /\ exists name params ub lc ld,
      Calc.calculate_limits currie_limits [1; 2; 3] "Gaussian" 3
        (0.05, 0.05) (Some 5%Z)
      = Return (name, params, (Array ub, Array lc, Array ld))
      /\ length ub = length [1; 2; 3]
      /\ length lc = length [1; 2; 3]
      /\ length ld = length [1; 2; 3].
Proof.
  assert (H1 : [1; 2; 3] <> []) by discriminate.
  assert (H2 : In "Gaussian"%string Calc.methods) by (simpl; tauto).
  assert (H3 : (2 <= 5)%Z) by lia.
  split; [exact H1 |]. split; [exact H2 |]. split; [exact H3 |].
  exact (windowed_limits_have_signal_size currie_limits [1; 2; 3] "Gaussian"
           3 (0.05, 0.05) 5%Z H1 H2 H3).
Defined.

(** X11: without a window, the detection limit that method Highest returns
    is the larger of the Gaussian and the Poisson detection limit of the
    whole signal. *)
Theorem highest_returns_the_larger_limit :
  forall poisson_limits responses sigma error_rates,
    responses <> [] ->
    exists name params ub lc,
      Calc.calculate_limits poisson_limits responses "Highest" sigma
        error_rates None
      = Return (name, params,
                (ub, lc,
                 Scalar
                   (Rmax (np_mean responses + sigma * np_std responses)
                         (np_mean responses
                          + snd (poisson_limits (np_mean responses)
                                   (fst error_rates) (snd error_rates)))))).
Proof.
  intros pl responses sigma er Hne.
  unfold Calc.calculate_limits.
  rewrite (nonempty_length responses Hne).
  string_tests. unfold Rltb.
  destruct (Rlt_dec (np_mean responses
                     + snd (pl (np_mean responses) (fst er) (snd er)))
                    (np_mean responses + sigma * np_std responses))
    as [Hlt | Hge].
  - string_tests. do 4 eexists. do 3 f_equal.
    rewrite Rmax_left by lra. reflexivity.
  - string_tests.
    destruct (pl (np_mean responses) (fst er) (snd er)) as [sc sd].
    cbn [snd] in *. do 4 eexists. do 3 f_equal.
    rewrite Rmax_right by lra. reflexivity.
Qed.

Lemma highest_returns_the_larger_limit_witness :
  [1; 2] <> []
  /\ exists name params ub lc,
      Calc.calculate_limits currie_limits [1; 2] "Highest" 3 (0.05, 0.05)
        None
      = Return (name, params,
                (ub, lc,
                 Scalar
                   (Rmax (np_mean [1; 2] + 3 * np_std [1; 2])
                         (np_mean [1; 2]
                          + snd (currie_limits (np_mean [1; 2])
                                   (fst (0.05, 0.05))
                                   (snd (0.05, 0.05))))))).
Proof.
  assert (H : [1; 2] <> []) by discriminate.
  split; [exact H |].
  exact (highest_returns_the_larger_limit currie_limits [1; 2] 3
           (0.05, 0.05) H).
Defined.

(** X12: method Automatic is method Poisson when the mean of the whole
    signal is below 50 and method Gaussian otherwise, also at exactly 50,
    for every window. *)
Theorem automatic_decides_on_the_mean :
  forall poisson_limits responses sigma error_rates window,
    responses <> [] ->
    Calc.calculate_limits poisson_limits responses "Automatic" sigma
      error_rates window
    = Calc.calculate_limits poisson_limits responses
        (automatic_choice responses) sigma error_rates window.
Proof.
  intros pl responses sigma er window Hne.
  unfold automatic_choice, Calc.calculate_limits.
  rewrite (nonempty_length responses Hne).
  string_tests. unfold Rltb.
  replace 50.0 with 50 by lra.
  destruct (Rlt_dec (np_mean responses) 50); string_tests; reflexivity.
Qed.

Lemma automatic_decides_on_the_mean_witness :
  [50; 50] <> []
  /\ automatic_choice [50; 50] = "Gaussian"%string
  /\ Calc.calculate_limits currie_limits [50; 50] "Automatic" 3
       (0.05, 0.05) None
     = Calc.calculate_limits currie_limits [50; 50]
         (automatic_choice [50; 50]) 3 (0.05, 0.05) None.
Proof.
  assert (H : [50; 50] <> []) by discriminate.
  split; [exact H |]. split.
  - unfold automatic_choice, np_mean. simpl.
    destruct (Rlt_dec _ _) as [A | _]; [lra | reflexivity].
  - exact (automatic_decides_on_the_mean currie_limits [50; 50] 3
             (0.05, 0.05) None H).
Defined.

(** ** spcal/calc.py, results *)

Lemma summarise_lod_cases (lod : value) :
  (lod = Array []
   /\ Calc.summarise_lod lod
      = Raise (ValueError "zero-size array to reduction operation"))
  \/ (lod <> Array [] /\ exists l, Calc.summarise_lod lod = Return l).
Proof.
  destruct lod as [v | [| x a]].
  - right. split; [discriminate | now exists (Scalar v)].
  - left. split; reflexivity.
  - right. split; [discriminate |]. simpl. eexists. reflexivity.
Qed.

(** X13: [results_from_mass_response] returns exactly when the limit of
    detection is not an empty array and neither the mass fraction nor the
    density is zero; [results_from_nebulisation_efficiency] returns exactly
    when the limit of detection is not an empty array and none of
    response * massfraction, density and efficiency * uptake * time is zero.
    On an empty array both raise the [ValueError] of [np.amin], before any
    division; in every other failure they raise [ZeroDivisionError]. *)
Theorem results_return_unless_a_divisor_is_zero :
  forall detections background lod density dwelltime efficiency massfraction
         uptake response time massresponse,
    ((exists r,
         Calc.results_from_mass_response detections background lod density
           massfraction massresponse = Return r)
     <-> lod <> Array [] /\ massfraction <> 0 /\ density <> 0)
    /\ ((exists r,
            Calc.results_from_nebulisation_efficiency detections background
              lod density dwelltime efficiency massfraction uptake response
              time = Return r)
        <-> lod <> Array [] /\ response * massfraction <> 0 /\ density <> 0
            /\ efficiency * uptake * time <> 0)
    /\ (lod = Array [] ->
        Calc.results_from_mass_response detections background lod density
          massfraction massresponse
        = Raise (ValueError "zero-size array to reduction operation")
        /\ Calc.results_from_nebulisation_efficiency detections background
             lod density dwelltime efficiency massfraction uptake response
             time
           = Raise (ValueError "zero-size array to reduction operation"))
    /\ (lod <> Array [] ->
        forall e,
          Calc.results_from_mass_response detections background lod density
            massfraction massresponse = Raise e
          \/ Calc.results_from_nebulisation_efficiency detections background
               lod density dwelltime efficiency massfraction uptake response
               time = Raise e ->
          e = ZeroDivisionError "float division by zero").
Proof.
  intros detections background lod density dwelltime efficiency massfraction
         uptake response time massresponse.
  unfold Calc.results_from_mass_response,
    Calc.results_from_nebulisation_efficiency,
    Particle.particle_mass, Particle.particle_number_concentration.
  destruct (summarise_lod_cases lod) as [[E S] | [N [l S]]]; rewrite S;
    cbn [bind].
  - split; [| split; [| split]].
    + split; [intros [r H]; discriminate | intros [H _]; contradiction].
    + split; [intros [r H]; discriminate | intros [H _]; contradiction].
    + intros _. split; reflexivity.
    + intros H. contradiction.
  - destruct (Req_EM_T massfraction 0) as [Emf | Nmf].
    + assert (Erf : response * massfraction = 0) by (subst; ring).
      rewrite (py_div_zero _ _ Emf), (py_div_zero _ _ Erf). cbn [bind].
      split; [| split; [| split]].
      * split; [intros [r H]; discriminate | intros [_ [H _]]; contradiction].
      * split; [intros [r H]; discriminate | intros [_ [H _]]; contradiction].
      * intros H. contradiction.
      * intros _ e [H | H]; now injection H as <-.
    + rewrite !(py_div_nonzero _ _ Nmf). cbn [bind].
      destruct (Req_EM_T density 0) as [Erho | Nrho].
      * rewrite !(particle_size_raises _ _ Erho). cbn [bind].
        destruct (Req_EM_T (response * massfraction) 0) as [Erf | Nrf].
        -- rewrite (py_div_zero _ _ Erf). cbn [bind].
           split; [| split; [| split]].
           ++ split; [intros [r H]; discriminate
                     | intros [_ [_ H]]; contradiction].
           ++ split; [intros [r H]; discriminate
                     | intros [_ [H _]]; contradiction].
           ++ intros H. contradiction.
           ++ intros _ e [H | H]; now injection H as <-.
        -- rewrite !(py_div_nonzero _ _ Nrf). cbn [bind].
           rewrite !(particle_size_raises _ _ Erho). cbn [bind].
           split; [| split; [| split]].
           ++ split; [intros [r H]; discriminate
                     | intros [_ [_ H]]; contradiction].
           ++ split; [intros [r H]; discriminate
                     | intros [_ [_ [H _]]]; contradiction].
           ++ intros H. contradiction.
           ++ intros _ e [H | H]; now injection H as <-.
      * rewrite !(particle_size_returns _ _ Nrho). cbn [bind].
        split; [| split; [| split]].
        -- split; [intros _; now repeat split | intros _; eexists; reflexivity].
        -- destruct (Req_EM_T (response * massfraction) 0) as [Erf | Nrf].
           ++ rewrite (py_div_zero _ _ Erf). cbn [bind].
              split; [intros [r H]; discriminate
                     | intros [_ [H _]]; contradiction].
           ++ rewrite !(py_div_nonzero _ _ Nrf). cbn [bind].
              rewrite !(particle_size_returns _ _ Nrho). cbn [bind].
              destruct (Req_EM_T (efficiency * uptake * time) 0)
                as [Eet | Net].
              ** rewrite (py_div_zero _ _ Eet). cbn [bind].
                 split; [intros [r H]; discriminate
                        | intros [_ [_ [_ H]]]; contradiction].
              ** rewrite (py_div_nonzero _ _ Net). cbn [bind].
                 assert (Nr : response <> 0) by (intros ->; apply Nrf; ring).
                 rewrite (py_div_nonzero _ _ Nr). cbn [bind].
                 split; [intros _; now repeat split
                        | intros _; eexists; reflexivity].
        -- intros H. contradiction.
        -- intros _ e [H | H]; [discriminate |].
           destruct (Req_EM_T (response * massfraction) 0) as [Erf | Nrf].
           ++ rewrite (py_div_zero _ _ Erf) in H. cbn [bind] in H.
              now injection H as <-.
           ++ rewrite !(py_div_nonzero _ _ Nrf) in H. cbn [bind] in H.
              rewrite !(particle_size_returns _ _ Nrho) in H.
              cbn [bind] in H.
              destruct (Req_EM_T (efficiency * uptake * time) 0)
                as [Eet | Net].
              ** rewrite (py_div_zero _ _ Eet) in H. cbn [bind] in H.
                 now injection H as <-.
              ** rewrite (py_div_nonzero _ _ Net) in H. cbn [bind] in H.
                 assert (Nr : response <> 0) by (intros ->; apply Nrf; ring).
                 rewrite (py_div_nonzero _ _ Nr) in H. cbn [bind] in H.
                 discriminate H.
Qed.

(** ** nanopart/util.py, detections *)

Local Close Scope R_scope.

Lemma take_mask_map {A : Type} (p : A -> bool) (idx : list A) :
  Nanopart.take_mask idx (map p idx) = filter p idx.
Proof.
  unfold Nanopart.take_mask.
  induction idx as [| a idx IH]; simpl; [reflexivity |].
  destruct (p a); simpl; now rewrite IH.
Qed.

(** A sample that [ndi.label] gives a label other than 0 is in the mask. *)
Lemma label_from_mask (mask : list bool) :
  forall prev n j,
    nth j (fst (Nanopart.label_from prev n mask)) 0 <> 0 ->
    nth j mask false = true.
Proof.
  induction mask as [| b m IH]; intros prev n j H.
  - simpl in H. destruct j; contradiction.
  - cbn [Nanopart.label_from] in H. destruct b.
    + destruct (Nanopart.label_from true (if prev then n else S n) m)
        as [ls k] eqn:E.
      destruct j as [| j]; [reflexivity |].
      cbn [fst nth] in *. apply (IH true (if prev then n else S n) j).
      now rewrite E.
    + destruct (Nanopart.label_from false n m) as [ls k] eqn:E.
      destruct j as [| j]; [now cbn in H |].
      cbn [fst nth] in *. apply (IH false n j). now rewrite E.
Qed.

Lemma In_select {A : Type} (y : list A) (labels : list nat) (i : nat)
    (v d : A) :
  In v (Nanopart.select y labels i) ->
  exists j, j < length y /\ nth j y d = v /\ nth j labels 0 = i.
Proof.
  unfold Nanopart.select. revert labels.
  induction y as [| a y IH]; intros [| l labels] H; simpl in H;
    try contradiction.
  destruct (Nat.eqb_spec l i) as [-> | Hl].
  - destruct H as [<- | H].
    + exists 0. simpl. repeat split. lia.
    + destruct (IH labels H) as [j [Hj [E1 E2]]].
      exists (S j). simpl. repeat split; [lia | exact E1 | exact E2].
  - destruct (IH labels H) as [j [Hj [E1 E2]]].
    exists (S j). simpl. repeat split; [lia | exact E1 | exact E2].
Qed.

Lemma select_nonempty {A : Type} (y : list A) (labels : list nat)
    (i : nat) :
  length y = length labels -> In i labels ->
  Nanopart.select y labels i <> [].
Proof.
  unfold Nanopart.select. revert labels.
  induction y as [| a y IH]; intros [| l labels] Hl Hin; simpl in *;
    try discriminate; try contradiction.
  destruct (Nat.eqb_spec l i) as [-> | Hne]; [discriminate |].
  destruct Hin as [E | Hin]; [contradiction |].
  apply IH; [lia | exact Hin].
Qed.

Section Detected.

Variable T : Type.
Variable zero : T.
Variable add : T -> T -> T.
Variable gtb : T -> T -> bool.

Lemma maximum_of_In (l : list T) :
  l <> [] -> In (Nanopart.maximum_of zero gtb l) l.
Proof.
  destruct l as [| a r]; [congruence | intros _].
  unfold Nanopart.maximum_of.
  assert (G : forall r m, In (fold_left (fun m v => if gtb v m then v else m)
                                r m) (m :: r)).
  { clear. induction r as [| v r IH]; intros m; [now left |].
    cbn [fold_left]. destruct (IH (if gtb v m then v else m)) as [E | H].
    - destruct (gtb v m); [right; left; exact E | left; exact E].
    - right. right. exact H. }
  apply G.
Qed.

(** What the routine returns, in terms of the labelling of the mask. *)
Lemma accumulate_detections_scipy_unfolded (y : list T) (ld la : T) :
  let labelled := Nanopart.ndi_label (map (fun v => gtb v la) y) in
  let kept :=
    filter (fun i => gtb (Nanopart.maximum_of zero gtb
                            (Nanopart.select y (fst labelled) i)) ld)
           (seq 1 (snd labelled - 1)) in
  Nanopart.accumulate_detections_scipy zero add gtb y ld la
  = if length (seq 1 (snd labelled - 1)) =? 0 then ([], [])
    else (Nanopart.ndi_sum zero add y (fst labelled) kept,
          map (fun l => if Nanopart.isin l kept then l else 0)
              (fst labelled)).
Proof.
  intros labelled kept. subst kept labelled.
  unfold Nanopart.accumulate_detections_scipy, arange.
  destruct (Nanopart.ndi_label (map (fun v => gtb v la) y)) as [labels n].
  cbn [fst snd]. unfold Nanopart.ndi_maximum.
  rewrite map_map.
  rewrite (take_mask_map
             (fun i => gtb (Nanopart.maximum_of zero gtb
                              (Nanopart.select y labels i)) ld)).
  reflexivity.
Qed.

End Detected.

Lemma label_from_none (mask : list bool) :
  forall prev n,
    (forall b, In b mask -> b = false) ->
    snd (Nanopart.label_from prev n mask) = n.
Proof.
  induction mask as [| b m IH]; intros prev n H; [reflexivity |].
  assert (Hb : b = false) by (apply H; now left). subst b.
  cbn [Nanopart.label_from].
  specialize (IH false n (fun b Hb => H b (or_intror Hb))).
  destruct (Nanopart.label_from false n m). exact IH.
Qed.

Lemma label_from_all (mask : list bool) :
  forall prev n,
    (forall b, In b mask -> b = true) ->
    snd (Nanopart.label_from prev n mask) <= (if prev then n else S n).
Proof.
  induction mask as [| b m IH]; intros prev n H.
  - simpl. destruct prev; lia.
  - assert (Hb : b = true) by (apply H; now left). subst b.
    cbn [Nanopart.label_from].
    specialize (IH true (if prev then n else S n)
                  (fun b Hb => H b (or_intror Hb))).
    destruct (Nanopart.label_from true (if prev then n else S n) m).
    exact IH.
Qed.

Section DetectedProperties.

Variable T : Type.
Variable zero : T.
Variable add : T -> T -> T.
Variable gtb : T -> T -> bool.

Lemma nth_mask (y : list T) (la : T) (j : nat) :
  j < length y ->
  nth j (map (fun v => gtb v la) y) false = gtb (nth j y zero) la.
Proof.
  intros Hj.
  rewrite (nth_indep _ false ((fun v => gtb v la) zero))
    by (now rewrite length_map).
  apply (map_nth (fun v => gtb v la)).
Qed.

Lemma length_labelled (y : list T) (la : T) :
  length (fst (Nanopart.ndi_label (map (fun v => gtb v la) y))) = length y.
Proof.
  unfold Nanopart.ndi_label. now rewrite label_from_length, length_map.
Qed.

(** X17: the label array that the routine returns is empty or has the
    size of the signal, and every sample that carries a label other than 0
    in it is above the accumulation limit. *)
Theorem labelled_samples_exceed_accumulation_limit :
  forall y ld la sums labels,
    Nanopart.accumulate_detections_scipy zero add gtb y ld la
    = (sums, labels) ->
    (labels = [] \/ length labels = length y)
    /\ forall j, nth j labels 0 <> 0 -> gtb (nth j y zero) la = true.
Proof.
  intros y ld la sums labels.
  rewrite accumulate_detections_scipy_unfolded.
  set (L := fst (Nanopart.ndi_label (map (fun v => gtb v la) y))).
  set (kept := filter _ _).
  pose proof (length_labelled y la) as HL. fold L in HL.
  destruct (length (seq 1 _) =? 0).
  - intros E. injection E as <- <-. split; [now left |].
    intros j H. destruct j; contradiction.
  - intros E. injection E as <- <-. split.
    + right. now rewrite length_map.
    + intros j H.
      destruct (Nat.lt_ge_cases j (length L)) as [Hj | Hj].
      * rewrite (nth_indep _ 0
                   ((fun l => if Nanopart.isin l kept then l else 0) 0))
          in H by (now rewrite length_map).
        rewrite (map_nth (fun l => if Nanopart.isin l kept then l else 0))
          in H.
        assert (H0 : nth j L 0 <> 0)
          by (destruct (Nanopart.isin (nth j L 0) kept); congruence).
        apply label_from_mask in H0.
        rewrite <- nth_mask by lia. exact H0.
      * rewrite nth_overflow in H by (now rewrite length_map).
        contradiction.
Qed.

(** X18: a label other than 0 remains in the returned array only when
    one of its samples is above the detection limit. *)
Theorem kept_regions_exceed_detection_limit :
  forall y ld la sums labels i,
    Nanopart.accumulate_detections_scipy zero add gtb y ld la
    = (sums, labels) ->
    i <> 0 -> In i labels ->
    exists j, nth j labels 0 = i /\ gtb (nth j y zero) ld = true.
Proof.
  intros y ld la sums labels i.
  rewrite accumulate_detections_scipy_unfolded.
  set (L := fst (Nanopart.ndi_label (map (fun v => gtb v la) y))).
  set (kept := filter _ _).
  pose proof (length_labelled y la) as HL. fold L in HL.
  destruct (length (seq 1 _) =? 0).
  - intros E. injection E as <- <-. intros _ [].
  - intros E Hi Hin. injection E as <- <-.
    apply in_map_iff in Hin. destruct Hin as [x [Ex Hx]].
    destruct (Nanopart.isin x kept) eqn:Ek; [| congruence].
    subst x. apply isin_In in Ek.
    pose proof Ek as Hk. unfold kept in Hk. apply filter_In in Hk.
    destruct Hk as [_ Hmax].
    assert (Hsel : Nanopart.select y L i <> [])
      by (apply select_nonempty; [now symmetry | exact Hx]).
    destruct (In_select y L i _ zero (maximum_of_In T zero gtb _ Hsel))
      as [j [Hj [Ey El]]].
    exists j. split.
    + rewrite (nth_indep _ 0
                 ((fun l => if Nanopart.isin l kept then l else 0) 0))
        by (rewrite length_map; lia).
      rewrite (map_nth (fun l => if Nanopart.isin l kept then l else 0)).
      rewrite El.
      now replace (Nanopart.isin i kept) with true
        by (symmetry; now apply isin_In).
    + now rewrite Ey.
Qed.

(** X19: when no sample is above the accumulation limit, and also when
    every sample is above it, the routine returns two empty arrays. *)
Theorem uniform_signal_gives_empty_arrays :
  forall y ld la,
    (forall v, In v y -> gtb v la = false)
    \/ (forall v, In v y -> gtb v la = true) ->
    Nanopart.accumulate_detections_scipy zero add gtb y ld la = ([], []).
Proof.
  intros y ld la H.
  rewrite accumulate_detections_scipy_unfolded.
  assert (Hn : snd (Nanopart.ndi_label (map (fun v => gtb v la) y)) <= 1).
  { unfold Nanopart.ndi_label. destruct H as [H | H].
    - rewrite label_from_none; [lia |].
      intros b Hb. apply in_map_iff in Hb. destruct Hb as [v [<- Hv]].
      now apply H.
    - apply (label_from_all _ false 0).
      intros b Hb. apply in_map_iff in Hb. destruct Hb as [v [<- Hv]].
      now apply H. }
  replace (snd (Nanopart.ndi_label (map (fun v => gtb v la) y)) - 1)
    with 0 by lia.
  reflexivity.
Qed.

(** X20: of the [n] regions that [ndi.label] finds, the last is never
    accumulated: there are at most [n - 1] sums and the label [n] does not
    remain in the returned array. *)
Theorem last_region_is_never_accumulated :
  forall y ld la sums labels,
    Nanopart.accumulate_detections_scipy zero add gtb y ld la
    = (sums, labels) ->
    let n := snd (Nanopart.ndi_label (map (fun v => gtb v la) y)) in
    length sums <= n - 1
    /\ forall l, In l labels -> l = 0 \/ l < n.
Proof.
  intros y ld la sums labels.
  rewrite accumulate_detections_scipy_unfolded.
  set (L := fst (Nanopart.ndi_label (map (fun v => gtb v la) y))).
  set (n := snd (Nanopart.ndi_label (map (fun v => gtb v la) y))).
  set (kept := filter _ _).
  assert (Hk : forall i, In i kept -> 1 <= i < n).
  { intros i Hi. unfold kept in Hi. apply filter_In in Hi.
    destruct Hi as [Hi _]. apply in_seq in Hi. lia. }
  destruct (length (seq 1 _) =? 0).
  - intros E. injection E as <- <-. cbn zeta. split; [simpl; lia |].
    intros l [].
  - intros E. injection E as <- <-. cbn zeta. split.
    + unfold Nanopart.ndi_sum. rewrite length_map. unfold kept.
      pose proof (filter_length_le
                    (fun i => gtb (Nanopart.maximum_of zero gtb
                                     (Nanopart.select y L i)) ld)
                    (seq 1 (n - 1))) as Hf.
      rewrite length_seq in Hf. exact Hf.
    + intros l Hl. apply in_map_iff in Hl. destruct Hl as [x [<- _]].
      destruct (Nanopart.isin x kept) eqn:Ek; [| now left].
      right. apply isin_In in Ek. apply Hk in Ek. lia.
Qed.

(** X21: the routine returns one sum for each label other than 0 that
    remains in the label array, and the labels are not numbered anew: every
    sample carries 0 or the number that [ndi.label] gave it. *)
Theorem one_sum_per_remaining_label :
  forall y ld la sums labels,
    Nanopart.accumulate_detections_scipy zero add gtb y ld la
    = (sums, labels) ->
    length sums
    = length (nodup Nat.eq_dec (filter (fun l => negb (l =? 0)) labels))
    /\ forall j,
         nth j labels 0 = 0
         \/ nth j labels 0
            = nth j (fst (Nanopart.ndi_label (map (fun v => gtb v la) y))) 0.
Proof.
  intros y ld la sums labels.
  rewrite accumulate_detections_scipy_unfolded.
  destruct (ndi_label_blocks (map (fun v => gtb v la) y)) as [z [rs E]].
  rewrite E. cbn [fst snd].
  destruct (length (seq 1 _) =? 0).
  - intros H. injection H as <- <-. split; [reflexivity |].
    intros j. left. now destruct j.
  - intros H. injection H as <- <-. split.
    + unfold Nanopart.ndi_sum. rewrite length_map.
      rewrite <- (take_mask_map
                    (fun i => gtb (Nanopart.maximum_of zero gtb
                                     (Nanopart.select y
                                        (repeat 0 z ++ blocks 1 rs) i)) ld)).
      pose proof (region_ids_cleared z rs
                    (map (fun i => gtb (Nanopart.maximum_of zero gtb
                                          (Nanopart.select y
                                             (repeat 0 z ++ blocks 1 rs) i))
                                       ld)
                         (seq 1 (length rs - 1)))) as R.
      cbn zeta in R. unfold Nanopart.region_ids in R. now rewrite R.
    + intros j.
      set (kept := filter _ _).
      destruct (Nat.lt_ge_cases j (length (repeat 0 z ++ blocks 1 rs)))
        as [Hj | Hj].
      * rewrite (nth_indep _ 0
                   ((fun l => if Nanopart.isin l kept then l else 0) 0))
          by (now rewrite length_map).
        rewrite (map_nth (fun l => if Nanopart.isin l kept then l else 0)).
        destruct (Nanopart.isin _ kept); [now right | now left].
      * left. apply nth_overflow. now rewrite length_map.
Qed.

End DetectedProperties.


Lemma labelled_samples_exceed_accumulation_limit_witness :
  Nanopart.accumulate_detections_scipy 0%Z Z.add Z.gtb x_test 1%Z 1%Z
  = ([2; 4]%Z, [1; 0; 2; 2; 0; 0; 0; 0; 0; 0])
  /\ (([1; 0; 2; 2; 0; 0; 0; 0; 0; 0] = []
       \/ length [1; 0; 2; 2; 0; 0; 0; 0; 0; 0] = length x_test)
      /\ forall j,
           nth j [1; 0; 2; 2; 0; 0; 0; 0; 0; 0] 0 <> 0 ->
           Z.gtb (nth j x_test 0%Z) 1%Z = true).
Proof.
  split; [reflexivity |].
  exact (labelled_samples_exceed_accumulation_limit
           Z 0%Z Z.add Z.gtb x_test 1%Z 1%Z
           [2; 4]%Z [1; 0; 2; 2; 0; 0; 0; 0; 0; 0] eq_refl).
Defined.

Lemma kept_regions_exceed_detection_limit_witness :
  Nanopart.accumulate_detections_scipy 0%Z Z.add Z.gtb x_test 1%Z 1%Z
  = ([2; 4]%Z, [1; 0; 2; 2; 0; 0; 0; 0; 0; 0])
  /\ 2 <> 0
  /\ In 2 [1; 0; 2; 2; 0; 0; 0; 0; 0; 0]
  /\ exists j,
       nth j [1; 0; 2; 2; 0; 0; 0; 0; 0; 0] 0 = 2
       /\ Z.gtb (nth j x_test 0%Z) 1%Z = true.
Proof.
  assert (N : 2 <> 0) by discriminate.
  assert (I : In 2 [1; 0; 2; 2; 0; 0; 0; 0; 0; 0])
    by (right; right; now left).
  split; [reflexivity |]. split; [exact N |]. split; [exact I |].
  exact (kept_regions_exceed_detection_limit
           Z 0%Z Z.add Z.gtb x_test 1%Z 1%Z
           [2; 4]%Z [1; 0; 2; 2; 0; 0; 0; 0; 0; 0] 2 eq_refl N I).
Defined.

Lemma uniform_signal_gives_empty_arrays_witness :
  ((forall v, In v [2; 3; 2]%Z -> Z.gtb v 1%Z = false)
   \/ (forall v, In v [2; 3; 2]%Z -> Z.gtb v 1%Z = true))
  /\ Nanopart.accumulate_detections_scipy 0%Z Z.add Z.gtb
       [2; 3; 2]%Z 1%Z 1%Z
     = ([], []).
Proof.
  assert (H : (forall v, In v [2; 3; 2]%Z -> Z.gtb v 1%Z = false)
              \/ (forall v, In v [2; 3; 2]%Z -> Z.gtb v 1%Z = true)).
  { right. intros v [<- | [<- | [<- | []]]]; reflexivity. }
  split; [exact H |].
  exact (uniform_signal_gives_empty_arrays
           Z 0%Z Z.add Z.gtb [2; 3; 2]%Z 1%Z 1%Z H).
Defined.

Lemma last_region_is_never_accumulated_witness :
  Nanopart.accumulate_detections_scipy 0%Z Z.add Z.gtb x_test 1%Z 1%Z
  = ([2; 4]%Z, [1; 0; 2; 2; 0; 0; 0; 0; 0; 0])
  /\ (let n :=
        snd (Nanopart.ndi_label (map (fun v => Z.gtb v 1%Z) x_test)) in
      length [2; 4]%Z <= n - 1
      /\ forall l, In l [1; 0; 2; 2; 0; 0; 0; 0; 0; 0] -> l = 0 \/ l < n).
Proof.
  split; [reflexivity |].
  exact (last_region_is_never_accumulated
           Z 0%Z Z.add Z.gtb x_test 1%Z 1%Z
           [2; 4]%Z [1; 0; 2; 2; 0; 0; 0; 0; 0; 0] eq_refl).
Defined.

Lemma one_sum_per_remaining_label_witness :
  Nanopart.accumulate_detections_scipy 0%Z Z.add Z.gtb x_test 1%Z 1%Z
  = ([2; 4]%Z, [1; 0; 2; 2; 0; 0; 0; 0; 0; 0])
  /\ (length [2; 4]%Z
      = length (nodup Nat.eq_dec
                  (filter (fun l => negb (l =? 0))
                     [1; 0; 2; 2; 0; 0; 0; 0; 0; 0]))
      /\ forall j,
           nth j [1; 0; 2; 2; 0; 0; 0; 0; 0; 0] 0 = 0
           \/ nth j [1; 0; 2; 2; 0; 0; 0; 0; 0; 0] 0
              = nth j (fst (Nanopart.ndi_label
                              (map (fun v => Z.gtb v 1%Z) x_test))) 0).
Proof.
  split; [reflexivity |].
  exact (one_sum_per_remaining_label
           Z 0%Z Z.add Z.gtb x_test 1%Z 1%Z
           [2; 4]%Z [1; 0; 2; 2; 0; 0; 0; 0; 0; 0] eq_refl).
Defined.


(** ** nanopart/util.py, Poisson limits *)

Local Open Scope R_scope.

(** X22: among means of 5 or more, and among means below 5 whose corrected
    value ub + epsilon is not negative, a larger mean never has smaller
    limits. *)
Theorem poisson_limits_increase_within_a_regime :
  forall ub1 ub2 epsilon,
    ub1 <= ub2 ->
    (ub2 < 5 /\ 0 <= ub1 + epsilon) \/ 5 <= ub1 ->
    fst (Nanopart.poisson_limits ub1 epsilon)
    <= fst (Nanopart.poisson_limits ub2 epsilon)
    /\ snd (Nanopart.poisson_limits ub1 epsilon)
       <= snd (Nanopart.poisson_limits ub2 epsilon).
Proof.
  intros ub1 ub2 epsilon Hle Hside. unfold Nanopart.poisson_limits.
  cbn [fst snd].
  assert (Hs : sqrt (if Rlt_dec ub1 5.0 then ub1 + epsilon else ub1)
               <= sqrt (if Rlt_dec ub2 5.0 then ub2 + epsilon else ub2)).
  { apply sqrt_le_1_alt.
    destruct (Rlt_dec ub1 5.0), (Rlt_dec ub2 5.0); lra. }
  split; lra.
Qed.

Lemma poisson_limits_increase_within_a_regime_witness :
  1 <= 2
  /\ ((2 < 5 /\ 0 <= 1 + 0.5) \/ 5 <= 1)
  /\ fst (Nanopart.poisson_limits 1 0.5)
     <= fst (Nanopart.poisson_limits 2 0.5)
  /\ snd (Nanopart.poisson_limits 1 0.5)
     <= snd (Nanopart.poisson_limits 2 0.5).
Proof.
  assert (H1 : 1 <= 2) by lra.
  assert (H2 : (2 < 5 /\ 0 <= 1 + 0.5) \/ 5 <= 1) by (left; lra).
  split; [exact H1 |]. split; [exact H2 |].
  exact (poisson_limits_increase_within_a_regime 1 2 0.5 H1 H2).
Defined.

(** X23: the limits do not increase across 5: a mean of 5 or more has
    limits no larger than those of any smaller mean that the correction
    lifts to it or above it. *)
Theorem poisson_limits_do_not_increase_across_five :
  forall ub1 ub2 epsilon,
    ub1 < 5 -> 5 <= ub2 -> ub2 <= ub1 + epsilon ->
    fst (Nanopart.poisson_limits ub2 epsilon)
    <= fst (Nanopart.poisson_limits ub1 epsilon)
    /\ snd (Nanopart.poisson_limits ub2 epsilon)
       <= snd (Nanopart.poisson_limits ub1 epsilon).
Proof.
  intros ub1 ub2 epsilon H1 H2 H3. unfold Nanopart.poisson_limits.
  cbn [fst snd].
  destruct (Rlt_dec ub1 5.0); [| lra].
  destruct (Rlt_dec ub2 5.0); [lra |].
  assert (Hs : sqrt ub2 <= sqrt (ub1 + epsilon))
    by (apply sqrt_le_1_alt; lra).
  split; lra.
Qed.

Lemma poisson_limits_do_not_increase_across_five_witness :
  4.8 < 5 /\ 5 <= 5 /\ 5 <= 4.8 + 0.5
  /\ fst (Nanopart.poisson_limits 5 0.5)
     <= fst (Nanopart.poisson_limits 4.8 0.5)
  /\ snd (Nanopart.poisson_limits 5 0.5)
     <= snd (Nanopart.poisson_limits 4.8 0.5).
Proof.
  assert (H1 : 4.8 < 5) by lra.
  assert (H2 : 5 <= 5) by lra.
  assert (H3 : 5 <= 4.8 + 0.5) by lra.
  split; [exact H1 |]. split; [exact H2 |]. split; [exact H3 |].
  exact (poisson_limits_do_not_increase_across_five 4.8 5 0.5 H1 H2 H3).
Defined.

Local Close Scope R_scope.


(** ** spcal/gui/batch.py, the worker *)

Lemma get_In_values {A : Type} (d : dict A) (k : string) (v : A) :
  get d k = Some v -> In v (map snd d).
Proof.
  induction d as [| [k' v'] r IH]; simpl; [discriminate |].
  destruct (String.eqb k k').
  - intros E. injection E as ->. now left.
  - intros E. right. now apply IH.
Qed.

Lemma get_dict_set_other {A : Type} (d : dict A) (k k' : string) (v : A) :
  k <> k' -> get (dict_set d k' v) k = get d k.
Proof.
  intros N. induction d as [| [k0 v0] r IH]; simpl.
  - destruct (String.eqb_spec k k'); [contradiction | reflexivity].
  - destruct (String.eqb_spec k' k0) as [-> | N0]; simpl.
    + destruct (String.eqb_spec k k0); [contradiction | reflexivity].
    + destruct (String.eqb k k0); [reflexivity | exact IH].
Qed.

(** The call as the worker writes it always raises: [molar_mass] is not a
    parameter of [cell_concentration]. *)
Lemma call_cell_concentration_raises (masses : value) (d m : R) :
  Batch.call_cell_concentration masses d m
  = Raise (TypeError "got an unexpected keyword argument").
Proof. reflexivity. Qed.

Section CalibrationProperties.

Variable method :
  list R -> R -> value -> Batch.kwargs -> py Calc.results.
Variable cell_kws : dict Batch.kwargs.

Lemma calibrate_element_with_cell_inputs
    (method_kws : dict Batch.kwargs) (name : string) (el : Batch.element)
    (cell : Batch.kwargs) (d m : R) :
  get cell_kws name = Some cell ->
  get cell "cell_diameter" = Some (Some d) ->
  get cell "molar_mass" = Some (Some m) ->
  exists e,
    snd (Batch.calibrate_element method cell_kws method_kws name el)
    = Raise e.
Proof.
  intros Hc Hd Hm. unfold Batch.calibrate_element.
  destruct (bind (lookup method_kws name) _) as [[kws time] | e];
    [| now exists e].
  cbn [snd].
  destruct (if existsb _ _ then _ else _) as [el' | e]; [| now exists e].
  unfold lookup at 1. rewrite Hc. cbn [bind].
  unfold lookup at 1. rewrite Hd. cbn [bind].
  unfold lookup at 1. rewrite Hm. cbn [bind].
  destruct (lookup (Batch.computed el') "masses") as [masses | e];
    [| now exists e].
  cbn [bind]. rewrite call_cell_concentration_raises. cbn [bind].
  eexists. reflexivity.
Qed.

Lemma calibrate_with_cell_inputs (todo : Batch.file_results) :
  forall method_kws results name cell d m,
    In name (map fst todo) ->
    get cell_kws name = Some cell ->
    get cell "cell_diameter" = Some (Some d) ->
    get cell "molar_mass" = Some (Some m) ->
    exists e,
      snd (Batch.calibrate method cell_kws method_kws todo results)
      = Raise e.
Proof.
  induction todo as [| [n0 e0] rest IH];
    intros method_kws results name cell d m Hin Hc Hd Hm; [destruct Hin |].
  cbn [Batch.calibrate].
  destruct (lookup results n0) as [el | e]; [| now exists e].
  destruct (Batch.calibrate_element method cell_kws method_kws n0 el)
    as [kws' [el' | e]] eqn:E; [| now exists e].
  cbn [map fst] in Hin. destruct Hin as [-> | Hin].
  - destruct (calibrate_element_with_cell_inputs method_kws name el
                cell d m Hc Hd Hm) as [e He].
    rewrite E in He. discriminate He.
  - now apply (IH kws' _ name cell d m).
Qed.

(** X24: a file with an element for which a cell diameter and a molar
    mass are set is never completed: the worker passes the molar mass under
    a name that [cell_concentration] does not have, so the file fails or an
    exception leaves the run. *)
Theorem cell_inputs_are_never_completed :
  forall process_file_detections export_nanoparticle_results
         method_kws infile outfile results name cell d m,
    process_file_detections infile = Return results ->
    In name (map fst results) ->
    get cell_kws name = Some cell ->
    get cell "cell_diameter" = Some (Some d) ->
    get cell "molar_mass" = Some (Some m) ->
    snd (Batch.process process_file_detections method cell_kws
           export_nanoparticle_results method_kws infile outfile)
    <> Batch.Complete.
Proof.
  intros pfd export method_kws infile outfile results name cell d m
         Hr Hin Hc Hd Hm.
  unfold Batch.process. rewrite Hr.
  destruct (calibrate_with_cell_inputs results method_kws results name
              cell d m Hin Hc Hd Hm) as [e He].
  destruct (Batch.calibrate method cell_kws method_kws results results)
    as [kws' calibrated].
  cbn [snd] in *. subst calibrated. destruct e; discriminate.
Qed.

(** X25: when an input of the method other than the time is unset, and
    no cell diameter is given, the method is not called: the element is left
    as it was read, nothing is raised, and only the time is written to the
    keyword arguments. *)
Theorem missing_input_leaves_the_element_as_read :
  forall (method_kws : dict Batch.kwargs) name el (kws : Batch.kwargs)
         k d (cell : Batch.kwargs),
    get method_kws name = Some kws ->
    get kws "dwelltime" = Some (Some d) ->
    k <> "time"%string ->
    get kws k = Some None ->
    get cell_kws name = Some cell ->
    get cell "cell_diameter" = Some None ->
    Batch.calibrate_element method cell_kws method_kws name el
    = (dict_set method_kws name
         (dict_set kws "time" (Some (INR (Batch.events el) * d)%R)),
       Return el).
Proof.
  intros method_kws name el kws k d cell Hk Hd Nk Hn Hc Hcd.
  unfold Batch.calibrate_element, lookup.
  rewrite Hk. cbn [bind]. rewrite Hd. cbn [bind].
  assert (Hex : existsb Batch.is_none
                  (map snd (dict_set kws "time"
                              (Some (INR (Batch.events el) * d)%R)))
                = true).
  { apply existsb_exists. exists None. split; [| reflexivity].
    apply (get_In_values _ k). now rewrite get_dict_set_other. }
  rewrite Hex. cbn [bind]. rewrite Hc. cbn [bind]. rewrite Hcd.
  reflexivity.
Qed.

End CalibrationProperties.

Lemma cell_inputs_are_never_completed_witness :
  read_gold file_a = Return [("Au"%string, gold)]
  /\ In "Au"%string (map fst [("Au"%string, gold)])
  /\ get cell_inputs "Au" = Some cell_of_gold
  /\ get cell_of_gold "cell_diameter" = Some (Some 1%R)
  /\ get cell_of_gold "molar_mass" = Some (Some 1%R)
  /\ snd (Batch.process read_gold method_example cell_inputs
            export_example kws_complete file_a out_a)
     <> Batch.Complete.
Proof.
  assert (H1 : read_gold file_a = Return [("Au"%string, gold)])
    by reflexivity.
  assert (H2 : In "Au"%string (map fst [("Au"%string, gold)]))
    by (now left).
  assert (H3 : get cell_inputs "Au" = Some cell_of_gold) by reflexivity.
  assert (H4 : get cell_of_gold "cell_diameter" = Some (Some 1%R))
    by reflexivity.
  assert (H5 : get cell_of_gold "molar_mass" = Some (Some 1%R))
    by reflexivity.
  split; [exact H1 |]. split; [exact H2 |]. split; [exact H3 |].
  split; [exact H4 |]. split; [exact H5 |].
  exact (cell_inputs_are_never_completed method_example cell_inputs
           read_gold export_example kws_complete file_a out_a
           [("Au"%string, gold)] "Au"%string cell_of_gold 1%R 1%R
           H1 H2 H3 H4 H5).
Defined.

Lemma missing_input_leaves_the_element_as_read_witness :
  get kws_without_density "Au" = Some inputs_without_density
  /\ get inputs_without_density "dwelltime" = Some (Some 1%R)
  /\ "density"%string <> "time"%string
  /\ get inputs_without_density "density" = Some None
  /\ get no_cell "Au" = Some no_cell_of_gold
  /\ get no_cell_of_gold "cell_diameter" = Some None
  /\ Batch.calibrate_element method_example no_cell kws_without_density
       "Au" gold
     = (dict_set kws_without_density "Au"
          (dict_set inputs_without_density "time"
             (Some (INR (Batch.events gold) * 1)%R)),
        Return gold).
Proof.
  assert (H1 : get kws_without_density "Au" = Some inputs_without_density)
    by reflexivity.
  assert (H2 : get inputs_without_density "dwelltime" = Some (Some 1%R))
    by reflexivity.
  assert (H3 : "density"%string <> "time"%string) by discriminate.
  assert (H4 : get inputs_without_density "density" = Some None)
    by reflexivity.
  assert (H5 : get no_cell "Au" = Some no_cell_of_gold) by reflexivity.
  assert (H6 : get no_cell_of_gold "cell_diameter" = Some None)
    by reflexivity.
  split; [exact H1 |]. split; [exact H2 |]. split; [exact H3 |].
  split; [exact H4 |]. split; [exact H5 |]. split; [exact H6 |].
  exact (missing_input_leaves_the_element_as_read method_example no_cell
           kws_without_density "Au"%string gold inputs_without_density
           "density"%string 1%R no_cell_of_gold H1 H2 H3 H4 H5 H6).
Defined.

Section TraceProperties.

Variable process_file_detections : Batch.path -> py Batch.file_results.
Variable method :
  list R -> R -> value -> Batch.kwargs -> py Calc.results.
Variable cell_kws : dict Batch.kwargs.
Variable export_nanoparticle_results :
  Batch.path -> Batch.file_results -> py unit.
Variable isInterruptionRequested : nat -> bool.

Lemma run_from_trace (files : list (Batch.path * Batch.path)) :
  forall k method_kws,
    let t := fst (Batch.run_from process_file_detections method cell_kws
                    export_nanoparticle_results isInterruptionRequested
                    k method_kws files) in
    let s := snd (Batch.run_from process_file_detections method cell_kws
                    export_nanoparticle_results isInterruptionRequested
                    k method_kws files) in
    Batch.begun t
    = map (fun f => Batch.name (fst f))
        (firstn (length (Batch.begun t)) files)
    /\ Batch.reported t
       = map (fun f => Batch.name (fst f))
           (firstn (length (Batch.reported t)) files)
    /\ length (Batch.begun t)
       = length (Batch.reported t) + (if Batch.escaped s then 1 else 0)
    /\ length (Batch.begun t) <= length files.
Proof.
  induction files as [| [infile outfile] rest IH]; intros k method_kws.
  - simpl. auto.
  - cbn [Batch.run_from].
    destruct (isInterruptionRequested k); [simpl; repeat split; lia |].
    destruct (Batch.process _ _ _ _ _ _ _) as [kws' [| | e]].
    + specialize (IH (S k) kws').
      destruct (Batch.run_from _ _ _ _ _ (S k) kws' rest) as [t s].
      cbn [fst snd] in *. destruct IH as [Hb [Hr [Hl Hn]]].
      cbn [Batch.begun Batch.reported length firstn map fst].
      rewrite <- Hb, <- Hr.
      split; [reflexivity |]. split; [reflexivity |]. split; lia.
    + specialize (IH (S k) kws').
      destruct (Batch.run_from _ _ _ _ _ (S k) kws' rest) as [t s].
      cbn [fst snd] in *. destruct IH as [Hb [Hr [Hl Hn]]].
      cbn [Batch.begun Batch.reported length firstn map fst].
      rewrite <- Hb, <- Hr.
      split; [reflexivity |]. split; [reflexivity |]. split; lia.
    + simpl. repeat split; lia.
Qed.

(** X26: whatever happens during a run, the files that enter the loop
    body and the files that are reported are both initial parts of the input
    files, in their order; all files that entered are reported, but for the
    last one when an exception leaves the run; and no more files enter than
    there are pairs of an input and an output file. *)
Theorem run_reports_an_initial_part_of_the_files :
  forall method_kws infiles outfiles,
    let t := fst (Batch.run process_file_detections method cell_kws
                    export_nanoparticle_results isInterruptionRequested
                    method_kws infiles outfiles) in
    let s := snd (Batch.run process_file_detections method cell_kws
                    export_nanoparticle_results isInterruptionRequested
                    method_kws infiles outfiles) in
    Batch.begun t = map Batch.name (firstn (length (Batch.begun t)) infiles)
    /\ Batch.reported t
       = map Batch.name (firstn (length (Batch.reported t)) infiles)
    /\ length (Batch.begun t)
       = length (Batch.reported t) + (if Batch.escaped s then 1 else 0)
    /\ length (Batch.begun t) <= Nat.min (length infiles) (length outfiles).
Proof.
  intros method_kws infiles outfiles. unfold Batch.run.
  destruct (run_from_trace (combine infiles outfiles) 0 method_kws)
    as [Hb [Hr [Hl Hn]]].
  cbv zeta.
  set (t := fst _) in *. set (s := snd _) in *.
  split; [| split; [| split]].
  - rewrite Hb at 1. now apply map_fst_combine_firstn.
  - rewrite Hr at 1. apply map_fst_combine_firstn. lia.
  - exact Hl.
  - now rewrite length_combine in Hn.
Qed.

End TraceProperties.


(** ** spcal/gui/batch.py, the dialog *)









